(** * DataCat: the Alteryx workflow parser and the Python code generator

    A shallow embedding of [advanced_parser.py] (class
    [AdvancedAlteryxParser]) and [code_generator.py] (class
    [PythonCodeGenerator]), followed by the properties of the workflow
    graph, the tool classifier, the execution order and the emitted script.

    Conventions of the embedding.
    - A Python [str] is a [string]; each character is read as the code point
      of the same number (U+0000 to U+00FF).
    - A Python [dict] is an association list in insertion order with
      pairwise distinct keys ([PyDict]); assigning to an existing key keeps
      the key's position, as in Python.
    - The tree built by [xml.etree.ElementTree] is the inductive type
      [ET.Element]; [find] and [findall] follow the [.//tag] path semantics
      (proper descendants, document order).
    - Methods that mutate [self] take the object state and return the new
      one; an exception is an explicit completion value. *)

From Stdlib Require Import List String Ascii ZArith Lia Bool Arith.
From Stdlib Require Import Relations.Relation_Operators.
Import ListNotations.
Open Scope string_scope.
Set Warnings "-register-all".

(* ================================================================= *)
(** ** Python strings *)

Module PyStr.

Definition dquote : string := String "034"%char EmptyString.
Definition newline : string := String "010"%char EmptyString.

(** [sub in s] *)
Fixpoint contains (sub s : string) : bool :=
  String.prefix sub s ||
  match s with
  | EmptyString => false
  | String _ s' => contains sub s'
  end.

(** [s.lower()] on one character: A-Z, and the upper-case letters of
    U+00C0..U+00DE other than the multiplication sign U+00D7. *)
Definition lower_char (c : ascii) : ascii :=
  let n := nat_of_ascii c in
  if (((65 <=? n) && (n <=? 90)) ||
      ((192 <=? n) && (n <=? 222) && negb (n =? 215)))%nat
  then ascii_of_nat (n + 32) else c.

Fixpoint lower (s : string) : string :=
  match s with
  | EmptyString => EmptyString
  | String c s' => String (lower_char c) (lower s')
  end.

(** [str.isspace] on one character. *)
Definition is_space (c : ascii) : bool :=
  let n := nat_of_ascii c in
  (((9 <=? n) && (n <=? 13)) || ((28 <=? n) && (n <=? 32)) ||
   (n =? 133) || (n =? 160))%nat.

Fixpoint lstrip (s : string) : string :=
  match s with
  | EmptyString => EmptyString
  | String c s' => if is_space c then lstrip s' else s
  end.

(** Drops the trailing white space: a character is kept when it is not
    white space or when something is kept after it. *)
Fixpoint rstrip (s : string) : string :=
  match s with
  | EmptyString => EmptyString
  | String c s' =>
      match rstrip s' with
      | EmptyString => if is_space c then EmptyString else String c EmptyString
      | r => String c r
      end
  end.

(** [s.strip()] *)
Definition strip (s : string) : string := rstrip (lstrip s).

Fixpoint rev_string (s : string) : string :=
  match s with
  | EmptyString => EmptyString
  | String c s' => rev_string s' ++ String c EmptyString
  end.

(** [s.endswith(suffix)] *)
Definition endswith (s suffix : string) : bool :=
  String.prefix (rev_string suffix) (rev_string s).

(** [s.endswith((a, b))] *)
Definition endswith_any (s : string) (suffixes : list string) : bool :=
  existsb (endswith s) suffixes.

(** [s.replace(old, new)] for a non-empty [old]: left to right, without
    overlap.  [skip] counts the characters of a match still to drop. *)
Fixpoint replace_from (old new s : string) (skip : nat) : string :=
  match s with
  | EmptyString => EmptyString
  | String c s' =>
      match skip with
      | S k => replace_from old new s' k
      | O =>
          if String.prefix old s
          then new ++ replace_from old new s' (String.length old - 1)
          else String c (replace_from old new s' 0)
      end
  end.

Fixpoint intersperse_chars (new s : string) : string :=
  match s with
  | EmptyString => EmptyString
  | String c s' => String c (new ++ intersperse_chars new s')
  end.

Definition replace (old new s : string) : string :=
  match old with
  | EmptyString => new ++ intersperse_chars new s
  | _ => replace_from old new s 0
  end.

(** [sep.join(parts)] *)
Definition join (sep : string) (parts : list string) : string :=
  String.concat sep parts.

(** ['-' * n] *)
Fixpoint repeat_string (s : string) (n : nat) : string :=
  match n with
  | O => EmptyString
  | S k => s ++ repeat_string s k
  end.

Definition hex_digit (n : nat) : ascii :=
  if (n <? 10)%nat then ascii_of_nat (48 + n) else ascii_of_nat (87 + n).

(** Characters that [repr] writes as they are. *)
Definition is_printable (c : ascii) : bool :=
  let n := nat_of_ascii c in
  (((32 <=? n) && (n <=? 126)) || ((161 <=? n) && negb (n =? 173)))%nat.

Definition repr_char (quote : ascii) (c : ascii) : string :=
  let n := nat_of_ascii c in
  if Ascii.eqb c "\"%char then "\\"
  else if Ascii.eqb c quote then String "\"%char (String c EmptyString)
  else if (n =? 9)%nat then "\t"
  else if (n =? 10)%nat then "\n"
  else if (n =? 13)%nat then "\r"
  else if is_printable c then String c EmptyString
  else String "\"%char (String "x"%char
         (String (hex_digit (n / 16)) (String (hex_digit (n mod 16)) EmptyString))).

Fixpoint repr_body (quote : ascii) (s : string) : string :=
  match s with
  | EmptyString => EmptyString
  | String c s' => repr_char quote c ++ repr_body quote s'
  end.

(** [repr(s)]: single quotes, unless the text has a single quote and no
    double quote. *)
Definition repr (s : string) : string :=
  let quote :=
    if contains "'" s && negb (contains dquote s) then "034"%char else "'"%char in
  String quote (repr_body quote s ++ String quote EmptyString).

(** Decimal text of a natural number, left-padded with zeros to [width]. *)
Fixpoint digits_of (fuel n : nat) (acc : string) : string :=
  match fuel with
  | O => acc
  | S f =>
      let acc' := String (ascii_of_nat (48 + n mod 10)) acc in
      if (n / 10 =? 0)%nat then acc' else digits_of f (n / 10) acc'
  end.

Definition of_nat (n : nat) : string := digits_of (S n) n EmptyString.

Definition zero_pad (width n : nat) : string :=
  let d := of_nat n in
  repeat_string "0" (width - String.length d) ++ d.

End PyStr.

(* ================================================================= *)
(** ** Python dictionaries (insertion ordered) *)

Module PyDict.

Definition dict (V : Type) : Type := list (string * V).

Fixpoint get {V} (k : string) (d : dict V) : option V :=
  match d with
  | [] => None
  | (k', v) :: d' => if String.eqb k k' then Some v else get k d'
  end.

(** [k in d] *)
Definition mem {V} (k : string) (d : dict V) : bool :=
  match get k d with Some _ => true | None => false end.

(** [d.get(k, default)] *)
Definition get_default {V} (k : string) (default : V) (d : dict V) : V :=
  match get k d with Some v => v | None => default end.

(** [d[k] = v] *)
Fixpoint set {V} (k : string) (v : V) (d : dict V) : dict V :=
  match d with
  | [] => [(k, v)]
  | (k', v') :: d' =>
      if String.eqb k k' then (k', v) :: d' else (k', v') :: set k v d'
  end.

Definition keys {V} (d : dict V) : list string := map fst d.

Definition items {V} (d : dict V) : list (string * V) := d.

End PyDict.

Import PyDict.

(** Membership of a string in a list of strings: [x in xs]. *)
Definition mem_str (x : string) (xs : list string) : bool :=
  existsb (String.eqb x) xs.

(* ================================================================= *)
(** ** Configuration values: [str], [None], nested [dict] *)

Inductive PyVal : Type :=
| VNone : PyVal
| VStr (s : string) : PyVal
| VDict (entries : list (string * PyVal)) : PyVal.

(** An attribute set, [child.attrib], as a configuration value. *)
Definition attrib_value (a : dict string) : PyVal :=
  VDict (map (fun kv => (fst kv, VStr (snd kv))) a).

(** [repr(v)] *)
Fixpoint py_repr (v : PyVal) : string :=
  match v with
  | VNone => "None"
  | VStr s => PyStr.repr s
  | VDict entries =>
      "{" ++ PyStr.join ", "
               (map (fun kv => PyStr.repr (fst kv) ++ ": " ++ py_repr (snd kv)) entries)
          ++ "}"
  end.

(** [str(v)], also what an f-string writes for [{v}]. *)
Definition py_str (v : PyVal) : string :=
  match v with
  | VStr s => s
  | _ => py_repr v
  end.

(** [str(config)] for a [dict] *)
Definition dict_str (config : dict PyVal) : string := py_repr (VDict config).

(** Truth value of a configuration value. *)
Definition truthy (v : PyVal) : bool :=
  match v with
  | VNone => false
  | VStr s => negb (String.eqb s "")
  | VDict entries => match entries with [] => false | _ => true end
  end.

(* ================================================================= *)
(** ** The element tree of [xml.etree.ElementTree] *)

Module ET.

Inductive Element : Type :=
| Elem (tag : string) (attrib : dict string) (text : option string)
       (children : list Element) : Element.

Definition tag (e : Element) : string := let '(Elem t _ _ _) := e in t.
Definition attrib (e : Element) : dict string := let '(Elem _ a _ _) := e in a.
Definition text (e : Element) : option string := let '(Elem _ _ x _) := e in x.
Definition children (e : Element) : list Element := let '(Elem _ _ _ c) := e in c.

(** [e.get(key)] and [e.get(key, default)] *)
Definition get (e : Element) (key : string) : option string :=
  PyDict.get key (attrib e).

Definition get_default (e : Element) (key default : string) : string :=
  PyDict.get_default key default (attrib e).

(** [e.iter()] without [e] itself: the proper descendants in document
    order. *)
Fixpoint descendants (e : Element) : list Element :=
  match e with
  | Elem _ _ _ cs => flat_map (fun c => c :: descendants c) cs
  end.

(** [e.findall('.//' + t)] *)
Definition findall (t : string) (e : Element) : list Element :=
  filter (fun d => String.eqb (tag d) t) (descendants e).

(** [e.find('.//' + t)] *)
Definition find (t : string) (e : Element) : option Element :=
  List.find (fun d => String.eqb (tag d) t) (descendants e).

End ET.

(* ================================================================= *)
(** ** Exceptions and completions *)

Inductive exn : Type :=
| ParseError
| ValueError
| KeyError (key : string)
| AttributeError
| TypeError.

(** How a call ends: with a value, by raising, or outside what the
    embedding covers ([Unmodelled], used by the code generator only). *)
Inductive outcome (A : Type) : Type :=
| Done (a : A)
| Raised (e : exn)
| Unmodelled.

Arguments Done {A} a.
Arguments Raised {A} e.
Arguments Unmodelled {A}.

(** How a method that mutates [self] ends. *)
Inductive completion : Type :=
| Normal
| Raise (e : exn).

(* ================================================================= *)
(** ** [float(x)] on attribute text

    Only the accepted syntax matters to the parser; the number itself is
    kept as the literal it was read from. *)

Module PyFloat.

Inductive t : Type :=
| OfInt (z : Z)
| OfLiteral (s : string).

Definition is_digit (c : ascii) : bool :=
  let n := nat_of_ascii c in ((48 <=? n) && (n <=? 57))%nat.

(** After one digit: more digits, each optionally preceded by one
    underscore.  Returns what follows the digit part. *)
Fixpoint digits_tail (s : string) : string :=
  match s with
  | EmptyString => EmptyString
  | String c s' =>
      if is_digit c then digits_tail s'
      else if Ascii.eqb c "_"%char then
        match s' with
        | String c2 s'' => if is_digit c2 then digits_tail s'' else s
        | EmptyString => s
        end
      else s
  end.

Definition digitpart (s : string) : option string :=
  match s with
  | String c s' => if is_digit c then Some (digits_tail s') else None
  | EmptyString => None
  end.

Definition skip_sign (s : string) : string :=
  match s with
  | String c s' =>
      if Ascii.eqb c "+"%char || Ascii.eqb c "-"%char then s' else s
  | EmptyString => s
  end.

Definition after_mantissa (s : string) : option string :=
  match digitpart s with
  | Some r =>
      match r with
      | String c r' =>
          if Ascii.eqb c "."%char
          then match digitpart r' with
               | Some r'' => Some r''
               | None => Some r'
               end
          else Some r
      | EmptyString => Some r
      end
  | None =>
      match s with
      | String c r' => if Ascii.eqb c "."%char then digitpart r' else None
      | EmptyString => None
      end
  end.

Definition is_number (s : string) : bool :=
  match after_mantissa s with
  | None => false
  | Some EmptyString => true
  | Some (String e r) =>
      if Ascii.eqb e "e"%char || Ascii.eqb e "E"%char
      then match digitpart (skip_sign r) with
           | Some EmptyString => true
           | _ => false
           end
      else false
  end.

Definition is_special (s : string) : bool :=
  mem_str (PyStr.lower s) ["inf"; "infinity"; "nan"].

(** The texts [float] accepts. *)
Definition accepts (s : string) : bool :=
  let body := skip_sign (PyStr.strip s) in
  is_number body || is_special body.

(** [float(s)] for a [str] *)
Definition of_string (s : string) : exn + t :=
  if accepts s then inr (OfLiteral (PyStr.strip s)) else inl ValueError.

End PyFloat.

(* ================================================================= *)
(** ** [advanced_parser.py]: class [AdvancedAlteryxParser] *)

(** The dictionaries that [_parse_tool_node] and [_extract_connections]
    build have a fixed set of keys: they are records here. *)
Record Tool : Type := mkTool {
  tool_id : string;                            (* 'id' *)
  tool_type : string;                          (* 'type' *)
  plugin : string;
  macro : string;
  config : dict PyVal;
  gui : option (PyFloat.t * PyFloat.t);        (* 'position': x, y *)
  annotation : option string
}.

Record Connection : Type := mkConnection {
  conn_name : string;                          (* 'name' *)
  source : string;
  destination : string
}.

(** The attributes of the parser object. *)
Record Parser : Type := mkParser {
  tools : list Tool;
  connections : list Connection;
  metadata : dict (option string)
}.

(** [__init__] *)
Definition init : Parser := mkParser [] [] [].

(** What [ET.fromstring(xml_content)] makes of the raw bytes: the root
    element, or a parse error. *)
Inductive Document : Type :=
| Malformed
| WellFormed (root : ET.Element).

Definition _extract_metadata (root : ET.Element) (self : Parser) : Parser :=
  let metadata0 : dict (option string) :=
    [ ("version", Some (ET.get_default root "version" "Unknown"));
      ("creation_date", None);
      ("author", None);
      ("description", None) ] in
  let metadata1 :=
    match ET.find "Properties" root with
    | Some properties =>
        match ET.find "MetaInfo" properties with
        | Some meta =>
            fold_left
              (fun md child =>
                 if mem_str (ET.tag child) ["Author"; "Description"; "CreationDate"]
                 then PyDict.set (PyStr.lower (ET.tag child)) (ET.text child) md
                 else md)
              (ET.children meta) metadata0
        | None => metadata0
        end
    | None => metadata0
    end in
  mkParser (tools self) (connections self) metadata1.

Definition _identify_tool_type (plugin macro : string) (config : dict PyVal) : string :=
  if PyDict.mem "File" config then
    if PyDict.mem "FileName_Out" config
       || existsb (fun k => PyStr.contains "output" (PyStr.lower k)) (PyDict.keys config)
    then "output_data"
    else "input_data"
  else
    let after_plugin :=
      if macro =? "" then "unknown" else "macro:" ++ macro in
    if PyStr.contains "AlteryxBasePluginsEngine" plugin then
      let config_str := PyStr.lower (dict_str config) in
      if PyStr.contains "filter" config_str then "filter"
      else if PyStr.contains "join" config_str then "join"
      else if PyStr.contains "sort" config_str then "sort"
      else if PyStr.contains "summarize" config_str
              || PyStr.contains "groupby" config_str then "summarize"
      else if PyStr.contains "formula" config_str then "formula"
      else if PyStr.contains "select" config_str then "select"
      else if PyStr.contains "unique" config_str then "unique"
      else if PyStr.contains "sample" config_str then "sample"
      else if PyStr.contains "recordid" config_str then "record_id"
      else after_plugin
    else if PyStr.contains "AlteryxBasePluginsGui" plugin then
      if PyStr.contains "browse" (PyStr.lower plugin) then "browse"
      else if PyStr.contains "textinput" (PyStr.lower plugin) then "text_input"
      else after_plugin
    else after_plugin.

(** [child.text and child.text.strip()] as a truth value. *)
Definition has_text (e : ET.Element) : bool :=
  match ET.text e with
  | Some t => negb (t =? "") && negb (PyStr.strip t =? "")
  | None => false
  end.

Definition stripped_text (e : ET.Element) : string :=
  match ET.text e with
  | Some t => PyStr.strip t
  | None => ""
  end.

(** [_recursive_config_extract(element, config, prefix)]: returns the
    dictionary [config] as the loop leaves it. *)
Fixpoint _recursive_config_extract (element : ET.Element) (config : dict PyVal)
         (prefix : string) {struct element} : dict PyVal :=
  match element with
  | ET.Elem _ _ _ element_children =>
      fold_left
        (fun config child =>
           let key := if prefix =? "" then ET.tag child else prefix ++ ET.tag child in
           match ET.children child with
           | _ :: _ =>
               let sub_config := _recursive_config_extract child [] "" in
               PyDict.set key (VDict sub_config) config
           | [] =>
               if has_text child then PyDict.set key (VStr (stripped_text child)) config
               else match ET.attrib child with
                    | _ :: _ => PyDict.set key (attrib_value (ET.attrib child)) config
                    | [] => PyDict.set key VNone config
                    end
           end)
        element_children config
  end.

Definition _extract_detailed_config (properties : ET.Element) : dict PyVal :=
  match ET.find "Configuration" properties with
  | None => []
  | Some configuration => _recursive_config_extract configuration [] ""
  end.

(** [float(position.get(key, 0))] *)
Definition position_coordinate (position : ET.Element) (key : string)
  : exn + PyFloat.t :=
  match ET.get position key with
  | None => inr (PyFloat.OfInt 0)
  | Some s => PyFloat.of_string s
  end.

Definition _extract_gui_settings (node : ET.Element)
  : exn + option (PyFloat.t * PyFloat.t) :=
  match ET.find "GuiSettings" node with
  | Some gui =>
      match ET.find "Position" gui with
      | Some position =>
          match position_coordinate position "x" with
          | inl e => inl e
          | inr x =>
              match position_coordinate position "y" with
              | inl e => inl e
              | inr y => inr (Some (x, y))
              end
          end
      | None => inr None
      end
  | None => inr None
  end.

Definition _extract_annotation (node : ET.Element) : option string :=
  match ET.find "Properties" node with
  | Some properties =>
      match ET.find "Annotation" properties with
      | Some annotation =>
          match ET.find "Name" annotation with
          | Some name =>
              match ET.text name with
              | Some t => if t =? "" then None else Some (PyStr.strip t)
              | None => None
              end
          | None => None
          end
      | None => None
      end
  | None => None
  end.

(** [_parse_tool_node]: [inr None] is the [return None] of a node without
    a [ToolID]. *)
Definition _parse_tool_node (node : ET.Element) : exn + option Tool :=
  match ET.get node "ToolID" with
  | None => inr None
  | Some tool_id =>
      if tool_id =? "" then inr None
      else
        let engine_settings := ET.find "EngineSettings" node in
        let plugin :=
          match engine_settings with
          | Some es => ET.get_default es "EngineDll" ""
          | None => ""
          end in
        let macro :=
          match engine_settings with
          | Some es => ET.get_default es "Macro" ""
          | None => ""
          end in
        match _extract_gui_settings node with
        | inl e => inl e
        | inr gui =>
            let config :=
              match ET.find "Properties" node with
              | Some properties => _extract_detailed_config properties
              | None => []
              end in
            let tool_type := _identify_tool_type plugin macro config in
            inr (Some (mkTool tool_id tool_type plugin macro config gui
                              (_extract_annotation node)))
        end
  end.

Definition append_tool (tool_info : Tool) (self : Parser) : Parser :=
  mkParser (tools self ++ [tool_info]) (connections self) (metadata self).

Definition append_connection (conn_info : Connection) (self : Parser) : Parser :=
  mkParser (tools self) (connections self ++ [conn_info]) (metadata self).

(** The loop of [_extract_tools] over [root.findall('.//Node')]. *)
Fixpoint extract_tools_from (nodes : list ET.Element) (self : Parser)
  : completion * Parser :=
  match nodes with
  | [] => (Normal, self)
  | node :: rest =>
      match _parse_tool_node node with
      | inl e => (Raise e, self)
      | inr None => extract_tools_from rest self
      | inr (Some tool_info) => extract_tools_from rest (append_tool tool_info self)
      end
  end.

Definition _extract_tools (root : ET.Element) (self : Parser) : completion * Parser :=
  extract_tools_from (ET.findall "Node" root) self.

Definition endpoint_text (e : ET.Element) : string :=
  match ET.text e with
  | Some t => if t =? "" then "" else PyStr.strip t
  | None => ""
  end.

Definition _extract_connections (root : ET.Element) (self : Parser) : Parser :=
  fold_left
    (fun self connection =>
       match ET.find "Origin" connection, ET.find "Destination" connection with
       | Some origin, Some destination =>
           append_connection
             (mkConnection (ET.get_default connection "name" "Output")
                           (endpoint_text origin) (endpoint_text destination))
             self
       | _, _ => self
       end)
    (ET.findall "Connection" root) self.

(** [parse]: the boolean it returns and the object state it leaves. *)
Definition parse (xml_content : Document) (self : Parser) : bool * Parser :=
  match xml_content with
  | Malformed => (false, self)
  | WellFormed root =>
      let self1 := _extract_metadata root self in
      match _extract_tools root self1 with
      | (Raise _, self2) => (false, self2)
      | (Normal, self2) => (true, _extract_connections root self2)
      end
  end.

(** *** [get_execution_order]: Kahn's algorithm *)

(** The first loop: one entry per tool id in [graph] and in [in_degree]. *)
Definition node_tables (tools : list Tool) : dict (list string) * dict Z :=
  fold_left
    (fun tables tool =>
       let '(graph, in_degree) := tables in
       (PyDict.set (tool_id tool) [] graph, PyDict.set (tool_id tool) 0%Z in_degree))
    tools ([], []).

(** The second loop: [graph[source].append(dest)] and
    [in_degree[dest] = in_degree.get(dest, 0) + 1] for the connections
    whose two ends are keys of [graph]. *)
Definition add_connections (connections : list Connection)
           (tables : dict (list string) * dict Z) : dict (list string) * dict Z :=
  fold_left
    (fun (tables : dict (list string) * dict Z) conn =>
       let '(graph, in_degree) := tables in
       let source := source conn in
       let dest := destination conn in
       if PyDict.mem source graph && PyDict.mem dest graph then
         (PyDict.set source (PyDict.get_default source [] graph ++ [dest])%list graph,
          PyDict.set dest (PyDict.get_default dest 0 in_degree + 1)%Z in_degree)
       else tables)
    connections tables.

(** [[tool_id for tool_id, degree in in_degree.items() if degree == 0]] *)
Definition initial_queue (in_degree : dict Z) : list string :=
  map fst (filter (fun item => (snd item =? 0)%Z) (PyDict.items in_degree)).

(** The [for neighbor in ...] loop; [in_degree[neighbor] -= 1] raises
    [KeyError] for a missing key. *)
Fixpoint visit_neighbors (neighbors : list string) (in_degree : dict Z)
         (queue : list string) : exn + (dict Z * list string) :=
  match neighbors with
  | [] => inr (in_degree, queue)
  | neighbor :: rest =>
      match PyDict.get neighbor in_degree with
      | None => inl (KeyError neighbor)
      | Some degree =>
          let in_degree' := PyDict.set neighbor (degree - 1)%Z in_degree in
          if (degree - 1 =? 0)%Z
          then visit_neighbors rest in_degree' (queue ++ [neighbor])%list
          else visit_neighbors rest in_degree' queue
      end
  end.

(** The [while queue] loop.  [None] stands for a loop still running after
    [fuel] iterations. *)
Fixpoint kahn_loop (fuel : nat) (graph : dict (list string)) (in_degree : dict Z)
         (queue result : list string) : option (exn + list string) :=
  match queue with
  | [] => Some (inr result)
  | node :: queue' =>
      match fuel with
      | O => None
      | S fuel' =>
          match visit_neighbors (PyDict.get_default node [] graph) in_degree queue' with
          | inl e => Some (inl e)
          | inr (in_degree', queue'') =>
              kahn_loop fuel' graph in_degree' queue'' (result ++ [node])%list
          end
      end
  end.

(** [get_execution_order]; the loop is given one iteration per tool. *)
Definition get_execution_order (self : Parser) : option (exn + list string) :=
  let '(graph, in_degree) :=
    add_connections (connections self) (node_tables (tools self)) in
  kahn_loop (List.length (tools self)) graph in_degree (initial_queue in_degree) [].

(** *** Read accessors *)

Fixpoint find_tool (tools : list Tool) (id : string) : option Tool :=
  match tools with
  | [] => None
  | tool :: rest => if tool_id tool =? id then Some tool else find_tool rest id
  end.

Definition get_tool_by_id (self : Parser) (id : string) : option Tool :=
  find_tool (tools self) id.

Definition get_source_tools (self : Parser) (id : string) : list string :=
  fold_left
    (fun sources conn =>
       if destination conn =? id then (sources ++ [source conn])%list else sources)
    (connections self) [].

Definition get_destination_tools (self : Parser) (id : string) : list string :=
  fold_left
    (fun destinations conn =>
       if source conn =? id then (destinations ++ [destination conn])%list
       else destinations)
    (connections self) [].

(* ================================================================= *)
(** ** [code_generator.py]: class [PythonCodeGenerator] *)

(** The attributes of the generator object; [imports] is a Python [set],
    kept as a list without repetition. *)
Record Generator : Type := mkGenerator {
  parser : Parser;
  var_counter : Z;
  tool_vars : dict string;
  imports : list string
}.

(** [__init__] *)
Definition new_generator (parser : Parser) : Generator :=
  mkGenerator parser 0 [] ["pandas as pd"; "numpy as np"].

(** Methods of the generator: they read and change [self] and may raise. *)
Definition Gen (A : Type) : Type := Generator -> outcome (A * Generator).

Definition ret {A} (a : A) : Gen A := fun self => Done (a, self).

Definition bind {A B} (m : Gen A) (k : A -> Gen B) : Gen B :=
  fun self =>
    match m self with
    | Done (a, self') => k a self'
    | Raised e => Raised e
    | Unmodelled => Unmodelled
    end.

Definition raise {A} (e : exn) : Gen A := fun _ => Raised e.

Definition lift {A} (o : outcome A) : Gen A :=
  fun self =>
    match o with
    | Done a => Done (a, self)
    | Raised e => Raised e
    | Unmodelled => Unmodelled
    end.

Notation "x <- m ;; k" := (bind m (fun x => k))
  (at level 61, m at next level, right associativity).

(** List concatenation next to string concatenation. *)
Notation "a +++ b" := (@List.app string a b) (at level 60, right associativity).

(** [self.imports.add(imp)] *)
Definition add_import (imp : string) : Gen unit :=
  fun self =>
    Done (tt, mkGenerator (parser self) (var_counter self) (tool_vars self)
                (if mem_str imp (imports self) then imports self
                 else (imports self ++ [imp])%list)).

(** [sorted(...)] on strings: code point order. *)
Fixpoint insert_sorted (x : string) (l : list string) : list string :=
  match l with
  | [] => [x]
  | y :: l' => if String.leb x y then x :: l else y :: insert_sorted x l'
  end.

Definition sorted (l : list string) : list string := fold_right insert_sorted [] l.

(** The reading of the clock, [datetime.now()]. *)
Record datetime : Type := mkDatetime {
  year : nat; month : nat; day : nat; hour : nat; minute : nat; second : nat
}.

(** [strftime('%Y-%m-%d %H:%M:%S')], for a year of four digits. *)
Definition strftime (now : datetime) : string :=
  PyStr.zero_pad 4 (year now) ++ "-" ++ PyStr.zero_pad 2 (month now) ++ "-"
  ++ PyStr.zero_pad 2 (day now) ++ " " ++ PyStr.zero_pad 2 (hour now) ++ ":"
  ++ PyStr.zero_pad 2 (minute now) ++ ":" ++ PyStr.zero_pad 2 (second now).

Definition triple_quote : string := PyStr.dquote ++ PyStr.dquote ++ PyStr.dquote.

Definition _generate_header (now : datetime) (self : Generator) : list string :=
  [ triple_quote;
    "Auto-generated Python script from Alteryx workflow";
    "Generated: " ++ strftime now;
    triple_quote;
    "" ]
  +++ map (fun imp => "import " ++ imp) (sorted (imports self)).

Definition _get_var_name (tool_id : string) : Gen string :=
  fun self =>
    let tool_vars' :=
      if PyDict.mem tool_id (tool_vars self) then tool_vars self
      else PyDict.set tool_id ("df_" ++ tool_id) (tool_vars self) in
    match PyDict.get tool_id tool_vars' with
    | Some v =>
        Done (v, mkGenerator (parser self) (var_counter self) tool_vars' (imports self))
    | None => Raised (KeyError tool_id)
    end.

Definition _get_source_var (tool_id : string) : Gen (option string) :=
  fun self =>
    match get_source_tools (parser self) tool_id with
    | [] => Done (None, self)
    | first :: _ => (v <- _get_var_name first ;; ret (Some v)) self
    end.

Fixpoint var_names (sources : list string) : Gen (list string) :=
  match sources with
  | [] => ret []
  | src :: rest =>
      v <- _get_var_name src ;;
      vs <- var_names rest ;;
      ret (v :: vs)
  end.

Definition _get_all_source_vars (tool_id : string) : Gen (list string) :=
  fun self => var_names (get_source_tools (parser self) tool_id) self.

(** [not source_var] *)
Definition no_source (source_var : option string) : bool :=
  match source_var with
  | None => true
  | Some v => v =? ""
  end.

(** What an f-string writes for [{source_var}]. *)
Definition source_text (source_var : option string) : string :=
  match source_var with
  | None => "None"
  | Some v => v
  end.

(** *** [_convert_expression_to_pandas] *)

(** The text up to the first closing bracket. *)
Fixpoint until_bracket (s : string) : option string :=
  match s with
  | EmptyString => None
  | String c s' =>
      if Ascii.eqb c "]"%char then Some EmptyString
      else match until_bracket s' with
           | Some name => Some (String c name)
           | None => None
           end
  end.

(** [re.sub(r'\[([^\]]+)\]', var_name + "['\\1']", s)] for a [var_name]
    free of backslashes.  [skip] counts the characters of a match still to
    drop. *)
Fixpoint sub_field_refs (var_name s : string) (skip : nat) : string :=
  match s with
  | EmptyString => EmptyString
  | String c s' =>
      match skip with
      | S k => sub_field_refs var_name s' k
      | O =>
          if Ascii.eqb c "["%char then
            match until_bracket s' with
            | Some name =>
                if name =? "" then String c (sub_field_refs var_name s' 0)
                else var_name ++ "['" ++ name ++ "']"
                     ++ sub_field_refs var_name s' (String.length name + 1)
            | None => String c (sub_field_refs var_name s' 0)
            end
          else String c (sub_field_refs var_name s' 0)
      end
  end.

Definition replacements : list (string * string) :=
  [ ("TONUMBER", "pd.to_numeric");
    ("TOSTRING", "str");
    ("DATETIMENOW", "pd.Timestamp.now");
    ("DATETIMEPARSE", "pd.to_datetime");
    ("SUBSTRING", "str.slice");
    ("LENGTH", "str.len");
    ("TRIM", "str.strip");
    ("UPPER", "str.upper");
    ("LOWER", "str.lower");
    ("CONTAINS", "str.contains");
    ("ISNULL", "isna");
    ("IF", "np.where");
    ("AND", "&");
    ("OR", "|");
    ("NOT", "~") ].

(** [re.sub] reads the replacement template first: escapes that a
    backslash in [var_name] would form are not covered.  It then raises
    [TypeError] for a configuration value that is not a [str]. *)
Definition _convert_expression_to_pandas (expr : PyVal) (var_name : string)
  : outcome string :=
  if PyStr.contains "\" var_name then Unmodelled
  else
    match expr with
    | VStr e =>
        Done (fold_left
                (fun pandas_expr r => PyStr.replace (fst r) (snd r) pandas_expr)
                replacements (sub_field_refs var_name e 0))
    | _ => Raised TypeError
    end.

(** *** Tool-specific code generators *)

Definition _generate_input_data (tool : Tool) (var_name : string) : Gen (list string) :=
  let config := config tool in
  let file_path :=
    PyDict.get_default "File"
      (PyDict.get_default "FileName" (VStr "input.csv") config) config in
  let code := ["# Read input file: " ++ py_str file_path] in
  match file_path with
  | VStr path =>
      let tail :=
        ["print(f'Loaded {len(" ++ var_name ++ ")} rows from " ++ path ++ "')"] in
      if PyStr.endswith path ".csv" then
        ret (code +++ [var_name ++ " = pd.read_csv('" ++ path ++ "')"] +++ tail)
      else if PyStr.endswith_any path [".xlsx"; ".xls"] then
        _ <- add_import "openpyxl" ;;
        ret (code +++ [var_name ++ " = pd.read_excel('" ++ path ++ "')"] +++ tail)
      else if PyStr.endswith path ".txt" then
        let delimiter := PyDict.get_default "Delimeter" (VStr "\t") config in
        ret (code
             +++ [var_name ++ " = pd.read_csv('" ++ path ++ "', delimiter='"
                 ++ py_str delimiter ++ "')"]
             +++ tail)
      else
        ret (code
             +++ [var_name ++ " = pd.read_csv('" ++ path
                 ++ "')  # Adjust read method as needed"]
             +++ tail)
  | _ => raise AttributeError
  end.

Definition _generate_output_data (tool : Tool) (var_name : string) : Gen (list string) :=
  let config := config tool in
  source_var <- _get_source_var (tool_id tool) ;;
  if no_source source_var then
    ret ["# Output tool " ++ tool_id tool ++ ": No source data"]
  else
    let source_var := source_text source_var in
    let file_path :=
      PyDict.get_default "File"
        (PyDict.get_default "FileName_Out" (VStr "output.csv") config) config in
    let code := ["# Write output file: " ++ py_str file_path] in
    match file_path with
    | VStr path =>
        let tail :=
          ["print(f'Wrote {len(" ++ source_var ++ ")} rows to " ++ path ++ "')"] in
        if PyStr.endswith path ".csv" then
          ret (code +++ [source_var ++ ".to_csv('" ++ path ++ "', index=False)"] +++ tail)
        else if PyStr.endswith_any path [".xlsx"; ".xls"] then
          ret (code +++ [source_var ++ ".to_excel('" ++ path ++ "', index=False)"] +++ tail)
        else
          ret (code +++ [source_var ++ ".to_csv('" ++ path ++ "', index=False)"] +++ tail)
    | _ => raise AttributeError
    end.

Definition _generate_filter (tool : Tool) (var_name : string) : Gen (list string) :=
  source_var <- _get_source_var (tool_id tool) ;;
  if no_source source_var then ret ["# Filter tool: No source data"]
  else
    let source_var := source_text source_var in
    let config := config tool in
    let filter_expr :=
      PyDict.get_default "Expression"
        (PyDict.get_default "Filter" (VStr "") config) config in
    let code := ["# Apply filter"] in
    let tail :=
      ["print(f'Filter: {len(" ++ var_name ++ ")} rows (from {len(" ++ source_var
       ++ ")})')"] in
    if truthy filter_expr then
      pandas_expr <- lift (_convert_expression_to_pandas filter_expr source_var) ;;
      ret (code +++ [var_name ++ " = " ++ source_var ++ "[" ++ pandas_expr ++ "]"]
           +++ tail)
    else
      ret (code
           +++ ["# TODO: Add filter condition"; var_name ++ " = " ++ source_var ++ ".copy()"]
           +++ tail).

Definition _generate_select (tool : Tool) (var_name : string) : Gen (list string) :=
  source_var <- _get_source_var (tool_id tool) ;;
  if no_source source_var then ret ["# Select tool: No source data"]
  else
    let source_var := source_text source_var in
    ret [ "# Select and configure fields";
          var_name ++ " = " ++ source_var ++ ".copy()";
          "# TODO: Apply field selections and type conversions" ].

Definition _generate_formula (tool : Tool) (var_name : string) : Gen (list string) :=
  source_var <- _get_source_var (tool_id tool) ;;
  if no_source source_var then ret ["# Formula tool: No source data"]
  else
    let source_var := source_text source_var in
    let config := config tool in
    let code := ["# Apply formula"; var_name ++ " = " ++ source_var ++ ".copy()"] in
    let formula :=
      PyDict.get_default "Expression"
        (PyDict.get_default "Formula" (VStr "") config) config in
    let output_field :=
      PyDict.get_default "Field"
        (PyDict.get_default "OutputField" (VStr "new_column") config) config in
    if truthy formula then
      pandas_expr <- lift (_convert_expression_to_pandas formula var_name) ;;
      ret (code
           +++ [var_name ++ "['" ++ py_str output_field ++ "'] = " ++ pandas_expr])
    else
      ret (code
           +++ ["# TODO: Add formula expression";
               var_name ++ "['" ++ py_str output_field ++ "'] = None"]).

Definition _generate_join (tool : Tool) (var_name : string) : Gen (list string) :=
  source_vars <- _get_all_source_vars (tool_id tool) ;;
  match source_vars with
  | left_var :: right_var :: _ =>
      let config := config tool in
      let code := ["# Join two datasets"] in
      match PyDict.get_default "JoinType" (VStr "inner") config with
      | VStr jt =>
          let join_type := PyStr.lower jt in
          ret (code
               +++ [ "# TODO: Specify join keys";
                    var_name ++ " = pd.merge(";
                    "    " ++ left_var ++ ",";
                    "    " ++ right_var ++ ",";
                    "    on='key_column',  # Specify join column(s)";
                    "    how='" ++ join_type ++ "'";
                    ")";
                    "print(f'Join: {len(" ++ var_name ++ ")} rows')" ])
      | _ => raise AttributeError
      end
  | _ => ret ["# Join tool: Insufficient source data"]
  end.

Definition _generate_union (tool : Tool) (var_name : string) : Gen (list string) :=
  source_vars <- _get_all_source_vars (tool_id tool) ;;
  match source_vars with
  | [] => ret ["# Union tool: No source data"]
  | _ =>
      let code := ["# Union multiple datasets"] in
      let tail := ["print(f'Union: {len(" ++ var_name ++ ")} rows')"] in
      match source_vars with
      | [only] => ret (code +++ [var_name ++ " = " ++ only ++ ".copy()"] +++ tail)
      | _ =>
          let union_list := PyStr.join ", " source_vars in
          ret (code
               +++ [var_name ++ " = pd.concat([" ++ union_list ++ "], ignore_index=True)"]
               +++ tail)
      end
  end.

Definition _generate_sort (tool : Tool) (var_name : string) : Gen (list string) :=
  source_var <- _get_source_var (tool_id tool) ;;
  if no_source source_var then ret ["# Sort tool: No source data"]
  else
    let source_var := source_text source_var in
    ret [ "# Sort data";
          "# TODO: Specify sort columns and order";
          var_name ++ " = " ++ source_var
          ++ ".sort_values('column_name', ascending=True)" ].

Definition _generate_summarize (tool : Tool) (var_name : string) : Gen (list string) :=
  source_var <- _get_source_var (tool_id tool) ;;
  if no_source source_var then ret ["# Summarize tool: No source data"]
  else
    let source_var := source_text source_var in
    ret [ "# Summarize/Group by";
          "# TODO: Specify group by columns and aggregations";
          var_name ++ " = " ++ source_var ++ ".groupby('group_column').agg({";
          "    'value_column': 'sum',";
          "    'count_column': 'count'";
          "}).reset_index()" ].

Definition _generate_unique (tool : Tool) (var_name : string) : Gen (list string) :=
  source_var <- _get_source_var (tool_id tool) ;;
  if no_source source_var then ret ["# Unique tool: No source data"]
  else
    let source_var := source_text source_var in
    ret [ "# Remove duplicates";
          var_name ++ " = " ++ source_var ++ ".drop_duplicates()";
          "print(f'Unique: {len(" ++ var_name ++ ")} rows (from {len(" ++ source_var
          ++ ")})')" ].

Definition _generate_sample (tool : Tool) (var_name : string) : Gen (list string) :=
  source_var <- _get_source_var (tool_id tool) ;;
  if no_source source_var then ret ["# Sample tool: No source data"]
  else
    let source_var := source_text source_var in
    let config := config tool in
    let sample_size := PyDict.get_default "N" (VStr "100") config in
    ret [ "# Sample records";
          var_name ++ " = " ++ source_var ++ ".sample(n=" ++ py_str sample_size
          ++ ", random_state=42)" ].

Definition _generate_record_id (tool : Tool) (var_name : string) : Gen (list string) :=
  source_var <- _get_source_var (tool_id tool) ;;
  if no_source source_var then ret ["# Record ID tool: No source data"]
  else
    let source_var := source_text source_var in
    ret [ "# Add record ID";
          var_name ++ " = " ++ source_var ++ ".copy()";
          var_name ++ "['RecordID'] = range(1, len(" ++ var_name ++ ") + 1)" ].

Definition _generate_text_to_columns (tool : Tool) (var_name : string)
  : Gen (list string) :=
  source_var <- _get_source_var (tool_id tool) ;;
  if no_source source_var then ret ["# Text to Columns tool: No source data"]
  else
    let source_var := source_text source_var in
    let config := config tool in
    let delimiter := PyDict.get_default "Delimiter" (VStr ",") config in
    ret [ "# Split text column";
          var_name ++ " = " ++ source_var ++ ".copy()";
          "# TODO: Specify column to split";
          "split_cols = " ++ var_name ++ "['text_column'].str.split('"
          ++ py_str delimiter ++ "', expand=True)";
          var_name ++ " = pd.concat([" ++ var_name ++ ", split_cols], axis=1)" ].

Definition _generate_cross_tab (tool : Tool) (var_name : string) : Gen (list string) :=
  source_var <- _get_source_var (tool_id tool) ;;
  if no_source source_var then ret ["# Cross Tab tool: No source data"]
  else
    let source_var := source_text source_var in
    ret [ "# Create cross-tabulation";
          "# TODO: Specify row, column, and value fields";
          var_name ++ " = pd.pivot_table(";
          "    " ++ source_var ++ ",";
          "    values='value_column',";
          "    index='row_column',";
          "    columns='column_column',";
          "    aggfunc='sum'";
          ").reset_index()" ].

Definition _generate_transpose (tool : Tool) (var_name : string) : Gen (list string) :=
  source_var <- _get_source_var (tool_id tool) ;;
  if no_source source_var then ret ["# Transpose tool: No source data"]
  else
    let source_var := source_text source_var in
    ret [ "# Transpose data";
          var_name ++ " = " ++ source_var ++ ".transpose()" ].

Definition _generate_browse (tool : Tool) (var_name : string) : Gen (list string) :=
  source_var <- _get_source_var (tool_id tool) ;;
  if no_source source_var then ret ["# Browse tool: No source data"]
  else
    let source_var := source_text source_var in
    ret [ "# Display data (Browse equivalent)";
          "print(f'\nBrowse - First 10 rows:')";
          "print(" ++ source_var ++ ".head(10))";
          "print(f'\nShape: {" ++ source_var ++ ".shape}')" ].

Definition _generate_generic (tool : Tool) (var_name : string) : Gen (list string) :=
  source_var <- _get_source_var (tool_id tool) ;;
  let code :=
    ["# Tool type '" ++ tool_type tool ++ "' - requires manual implementation"] in
  if no_source source_var then
    ret (code +++ ["# No source data available"])
  else
    let source_var := source_text source_var in
    ret (code
         +++ [ var_name ++ " = " ++ source_var ++ ".copy()";
               "# TODO: Implement " ++ tool_type tool ++ " logic" ]).

Definition _generate_tool_code (tool : Tool) : Gen (list string) :=
  let tool_type := tool_type tool in
  let tool_id := tool_id tool in
  var_name <- _get_var_name tool_id ;;
  let annotation :=
    match annotation tool with
    | Some a => if a =? "" then "Tool " ++ tool_id else a
    | None => "Tool " ++ tool_id
    end in
  let code :=
    [ "# " ++ PyStr.repeat_string "-" 60;
      "# " ++ annotation ++ " (Type: " ++ tool_type ++ ", ID: " ++ tool_id ++ ")";
      "# " ++ PyStr.repeat_string "-" 60 ] in
  fragment <-
    (if tool_type =? "input_data" then _generate_input_data tool var_name
     else if tool_type =? "output_data" then _generate_output_data tool var_name
     else if tool_type =? "filter" then _generate_filter tool var_name
     else if tool_type =? "select" then _generate_select tool var_name
     else if tool_type =? "formula" then _generate_formula tool var_name
     else if tool_type =? "join" then _generate_join tool var_name
     else if tool_type =? "union" then _generate_union tool var_name
     else if tool_type =? "sort" then _generate_sort tool var_name
     else if tool_type =? "summarize" then _generate_summarize tool var_name
     else if tool_type =? "unique" then _generate_unique tool var_name
     else if tool_type =? "sample" then _generate_sample tool var_name
     else if tool_type =? "record_id" then _generate_record_id tool var_name
     else if tool_type =? "text_to_columns" then _generate_text_to_columns tool var_name
     else if tool_type =? "cross_tab" then _generate_cross_tab tool var_name
     else if tool_type =? "transpose" then _generate_transpose tool var_name
     else if tool_type =? "browse" then _generate_browse tool var_name
     else _generate_generic tool var_name) ;;
  ret (code +++ fragment).

(** The [for tool_id in execution_order] loop of [generate]: the lines it
    adds to [code_lines]. *)
Fixpoint emit_tools (execution_order : list string) : Gen (list string) :=
  match execution_order with
  | [] => ret []
  | tool_id :: rest =>
      fun self =>
        match get_tool_by_id (parser self) tool_id with
        | Some tool =>
            (tool_code <- _generate_tool_code tool ;;
             more <- emit_tools rest ;;
             match tool_code with
             | [] => ret more
             | _ => ret (map (fun line => "    " ++ line) tool_code +++ ["    "] +++ more)
             end) self
        | None => emit_tools rest self
        end
  end.

(** [generate]: the list [code_lines] before it is joined.  [None] is a
    loop of [get_execution_order] that did not end. *)
Definition generate_lines (now : datetime) : Generator -> option (outcome (list string * Generator)) :=
  fun self =>
    let header := _generate_header now self in
    let opening :=
      [ ""; "def main():";
        "    " ++ triple_quote ++ "Main workflow execution function" ++ triple_quote;
        "    " ] in
    let closing :=
      [ "    return True"; ""; ""; "if __name__ == '__main__':"; "    main()" ] in
    match get_execution_order (parser self) with
    | None => None
    | Some (inl e) => Some (Raised e)
    | Some (inr execution_order) =>
        Some ((body <- emit_tools execution_order ;;
               ret (header +++ opening +++ body +++ closing)) self)
    end.

Definition generate (now : datetime) (self : Generator)
  : option (outcome (string * Generator)) :=
  match generate_lines now self with
  | None => None
  | Some (Done (code_lines, self')) => Some (Done (PyStr.join PyStr.newline code_lines, self'))
  | Some (Raised e) => Some (Raised e)
  | Some Unmodelled => Some Unmodelled
  end.

(* ================================================================= *)
(** ** Vocabulary of the properties *)

(** The ids of the parsed tools, in list order. *)
Definition ids (self : Parser) : list string := map tool_id (tools self).

Definition distinct_ids (self : Parser) : list string :=
  nodup string_dec (ids self).

(** The connections whose two ends are ids of parsed tools. *)
Definition joins (nodes : list string) (conn : Connection) : bool :=
  mem_str (source conn) nodes && mem_str (destination conn) nodes.

Definition valid_edges (self : Parser) : list Connection :=
  filter (joins (ids self)) (connections self).

(** [l.index(x)]: the first position of [x], if any. *)
Fixpoint index_of (x : string) (l : list string) : option nat :=
  match l with
  | [] => None
  | y :: l' => if x =? y then Some 0 else option_map S (index_of x l')
  end.

(** The graph induced on the known ids, and its cycles. *)
Definition edge (self : Parser) (s d : string) : Prop :=
  exists conn, In conn (valid_edges self) /\ source conn = s /\ destination conn = d.

Definition acyclic (self : Parser) : Prop :=
  forall n, ~ clos_trans string (edge self) n n.

(** The neighbours of a node, and the incoming edges of a node whose
    source is not yet in [done]. *)
Definition successors (E : list Connection) (k : string) : list string :=
  map destination (filter (fun c => source c =? k) E).

Definition pending (E : list Connection) (done : list string) (k : string) : nat :=
  List.length
    (filter (fun c => (destination c =? k) && negb (mem_str (source c) done)) E).

Definition occurrences (k : string) (l : list string) : nat :=
  count_occ string_dec l k.

Arguments occurrences : simpl never.

(** [a] comes strictly before [b]. *)
Definition before (a b : string) (l : list string) : Prop :=
  exists i j, index_of a l = Some i /\ index_of b l = Some j /\ i < j.

(** Every edge into a scheduled node comes from an earlier scheduled node. *)
Definition ordered (E : list Connection) (result : list string) : Prop :=
  forall c, In c E -> In (destination c) result ->
            before (source c) (destination c) result.

(** The invariant of the [while] loop of [get_execution_order], for the
    nodes [nodes] and the edges [E]. *)
Record kahn_inv (nodes : list string) (E : list Connection)
       (in_degree : dict Z) (queue result : list string) : Prop := {
  inv_degree : forall k, PyDict.get k in_degree =
                         if mem_str k nodes then Some (Z.of_nat (pending E result k))
                         else None;
  inv_nodup : NoDup (result ++ queue);
  inv_ready : forall k, In k (result ++ queue) <->
                        In k nodes /\ pending E result k = 0;
  inv_ordered : ordered E result
}.


(** *** The classifier's rules, in the words of the specification *)

(** An output marker among the keys: the key [FileName_Out], or a key whose
    lower-cased text contains [output]. *)
Definition output_marker (config : dict PyVal) : Prop :=
  In "FileName_Out" (PyDict.keys config) \/
  exists k, In k (PyDict.keys config) /\ PyStr.contains "output" (PyStr.lower k) = true.

(** The markers of the engine plugin family in their order of precedence,
    each with the tag it stands for. *)
Definition engine_markers : list (list string * string) :=
  [ (["filter"], "filter");
    (["join"], "join");
    (["sort"], "sort");
    (["summarize"; "groupby"], "summarize");
    (["formula"], "formula");
    (["select"], "select");
    (["unique"], "unique");
    (["sample"], "sample");
    (["recordid"], "record_id") ].

Definition marker_present (text : string) (entry : list string * string) : bool :=
  existsb (fun marker => PyStr.contains marker text) (fst entry).

(** The tag of the first marker present in [text]. *)
Definition first_marker (text : string) : option string :=
  option_map snd (List.find (marker_present text) engine_markers).

(** *** Configuration extraction, in the words of the specification *)




(* ================================================================= *)
(** ** Sample documents *)

Module Samples.

Definition element (tag : string) (attrib : dict string) (children : list ET.Element)
  : ET.Element := ET.Elem tag attrib None children.

Definition leaf (tag text : string) : ET.Element := ET.Elem tag [] (Some text) [].

(** A [Node] with a position, an engine plugin and a configuration. *)
Definition node (id x : string) (configuration : list ET.Element) : ET.Element :=
  element "Node" [("ToolID", id)]
    [ element "GuiSettings" []
        [ element "Position" [("x", x); ("y", "54")] [] ];
      element "Properties" [] [ element "Configuration" [] configuration ];
      element "EngineSettings" [("EngineDll", "AlteryxBasePluginsEngine.dll")] [] ].

Definition connection (origin destination : string) : ET.Element :=
  element "Connection" []
    [ ET.Elem "Origin" [("Connection", "Output")] (Some origin) [];
      ET.Elem "Destination" [("Connection", "Input")] (Some destination) [] ].

Definition document (nodes connections : list ET.Element) : ET.Element :=
  element "AlteryxDocument" [("yxmdVer", "2020.1")]
    [ element "Nodes" [] nodes; element "Connections" [] connections ].

(** input(1) -> filter(2) -> output(3) *)
Definition chain_document : ET.Element :=
  document
    [ node "1" "54" [leaf "File" "a.csv"];
      node "2" "162" [leaf "Mode" "Filter"; leaf "Expression" "[Amount] > 100"];
      node "3" "270" [leaf "File" "b.csv"; leaf "FileName_Out" "b.csv"] ]
    [ connection "1" "2"; connection "2" "3" ].

Definition chain_parser : Parser := snd (parse (WellFormed chain_document) init).

(** Two nodes that carry the same [ToolID]. *)
Definition duplicate_document : ET.Element :=
  document
    [ node "1" "54" [leaf "File" "a.csv"];
      node "1" "162" [leaf "File" "b.csv"] ]
    [].

Definition duplicate_parser : Parser := snd (parse (WellFormed duplicate_document) init).


(** One input tool that reads a spreadsheet. *)
Definition excel_document : ET.Element :=
  document [ node "1" "54" [leaf "File" "sales.xlsx"] ] [].

Definition excel_parser : Parser := snd (parse (WellFormed excel_document) init).

Definition noon : datetime := mkDatetime 2024 1 15 12 0 0.

End Samples.

(** *** Further vocabulary *)

(** The elements of a list in the order of their first occurrence: the key
    order of a dictionary filled from the list. *)
Definition first_occurrences (l : list string) : list string :=
  fold_left (fun seen x => if mem_str x seen then seen else (seen ++ [x])%list) l [].

(** The distinct ids without any incoming edge, in document order. *)
Definition roots (self : Parser) : list string :=
  filter (fun k => pending (valid_edges self) [] k =? 0)%nat
         (first_occurrences (ids self)).

(** A node is blocked when a node that lies on a cycle of the graph reaches
    it, in zero or more steps. *)
Definition on_cycle (self : Parser) (c : string) : Prop :=
  clos_trans string (edge self) c c.

Definition blocked (self : Parser) (k : string) : Prop :=
  exists c, on_cycle self c /\ (c = k \/ clos_trans string (edge self) c k).

(** The workflow without the connections that have an unknown end. *)
Definition without_dangling (self : Parser) : Parser :=
  mkParser (tools self) (valid_edges self) (metadata self).

(** A [Node] element that carries a non-empty [ToolID]. *)
Definition has_tool_id (node : ET.Element) : bool :=
  match ET.get node "ToolID" with
  | Some id => negb (id =? "")
  | None => false
  end.

Definition identified_nodes (root : ET.Element) : list ET.Element :=
  filter has_tool_id (ET.findall "Node" root).

(** The position of a node, if it has one, has coordinates that [float]
    accepts. *)
Definition position_accepted (node : ET.Element) : bool :=
  match _extract_gui_settings node with
  | inl _ => false
  | inr _ => true
  end.

(** A [Connection] element with an origin and a destination. *)
Definition complete_connection (connection : ET.Element) : bool :=
  match ET.find "Origin" connection, ET.find "Destination" connection with
  | Some _, Some _ => true
  | _, _ => false
  end.

(** The tags that the classifier can return, apart from [macro:<name>]. *)
Definition classifier_tags : list string :=
  [ "input_data"; "output_data"; "filter"; "join"; "sort"; "summarize";
    "formula"; "select"; "unique"; "sample"; "record_id"; "browse";
    "text_input"; "unknown" ].

(** A document with metadata, a node without [ToolID] whose position is not
    a number, and a connection without destination. *)
Definition annotated_document : ET.Element :=
  Samples.element "AlteryxDocument" [("yxmdVer", "2020.1")]
    [ Samples.element "Properties" []
        [ Samples.element "MetaInfo" []
            [ Samples.leaf "Author" "Ada";
              Samples.leaf "CreationDate" "2020-01-01";
              Samples.leaf "Name" "Sales" ] ];
      Samples.element "Nodes" []
        [ Samples.node "1" "54" [Samples.leaf "File" "a.csv"];
          Samples.element "Node" []
            [ Samples.element "GuiSettings" []
                [ Samples.element "Position" [("x", "left"); ("y", "54")] [] ] ];
          ET.Elem "Node" [("ToolID", "2")] None
            [ ET.Elem "EngineSettings" [("Macro", "Cleanse.yxmc")] None [] ] ];
      Samples.element "Connections" []
        [ Samples.connection "1" "2";
          Samples.element "Connection" [] [Samples.leaf "Origin" "2"] ] ].

(** The keys that [_extract_metadata] can leave in [metadata]. *)
Definition metadata_keys : list string :=
  ["version"; "creation_date"; "author"; "description"; "creationdate"].

(** *** The state of the generator *)

(** Every binding of the table is [df_<id>] for its id. *)
Definition canonical (tool_vars : dict string) : Prop :=
  forall k v, PyDict.get k tool_vars = Some v -> v = "df_" ++ k.



(** *** Workflows on which generation goes through *)

(** The value under [key], if any, is a [str]. *)
Definition string_valued (key : string) (config : dict PyVal) : Prop :=
  forall v, PyDict.get key config = Some v -> exists s, v = VStr s.

(** The configuration keys whose values the generators use as strings. *)
Definition text_keys : list string :=
  ["File"; "FileName"; "FileName_Out"; "JoinType"; "Expression"; "Filter"; "Formula"].

Definition plain_tool (tool : Tool) : Prop :=
  PyStr.contains "\" (tool_id tool) = false /\
  forall key, In key text_keys -> string_valued key (config tool).

(** No backslash in a tool id or in the source of a connection, and text
    under the keys of [text_keys]. *)
Definition plain_workflow (p : Parser) : Prop :=
  (forall tool, In tool (tools p) -> plain_tool tool) /\
  (forall conn, In conn (connections p) -> PyStr.contains "\" (source conn) = false).

(** A generator over the parser [p] whose bindings are all [df_<id>]. *)
Definition settled (p : Parser) (self : Generator) : Prop :=
  parser self = p /\ canonical (tool_vars self).

(** The method returns, on every settled generator, a value that satisfies
    [Q], and leaves a settled generator. *)
Definition succeeds_with {A} (p : Parser) (Q : A -> Prop) (m : Gen A) : Prop :=
  forall self, settled p self ->
               exists a self', m self = Done (a, self') /\ settled p self' /\ Q a.

(** A source variable that is absent, or free of backslashes. *)
Definition usable_source (source_var : option string) : Prop :=
  no_source source_var = true \/
  PyStr.contains "\" (source_text source_var) = false.



(* ================================================================= *)
(** ** Facts about the dictionaries *)

Section DictFacts.

Context {V : Type}.
Implicit Types (d : dict V) (k : string) (v : V).

Lemma get_set_same k v d : PyDict.get k (PyDict.set k v d) = Some v.
Proof.
  induction d as [|[k' v'] d IH]; simpl.
  - now rewrite String.eqb_refl.
  - destruct (k =? k') eqn:Hk; simpl; rewrite Hk; auto.
Qed.

Lemma get_set_other k k' v d :
  k <> k' -> PyDict.get k' (PyDict.set k v d) = PyDict.get k' d.
Proof.
  intros Hne. induction d as [|[k0 v0] d IH]; simpl.
  - destruct (k' =? k) eqn:Hk; auto.
    apply String.eqb_eq in Hk. congruence.
  - destruct (k =? k0) eqn:Hk; simpl.
    + apply String.eqb_eq in Hk; subst k0.
      destruct (k' =? k) eqn:Hk'; auto.
      apply String.eqb_eq in Hk'. congruence.
    + now rewrite IH.
Qed.

Lemma get_set k k' v d :
  PyDict.get k' (PyDict.set k v d) = if k' =? k then Some v else PyDict.get k' d.
Proof.
  destruct (k' =? k) eqn:Hk.
  - apply String.eqb_eq in Hk; subst. apply get_set_same.
  - apply String.eqb_neq in Hk. apply get_set_other; congruence.
Qed.

Lemma keys_set k v d :
  PyDict.keys (PyDict.set k v d) =
  if PyDict.mem k d then PyDict.keys d else (PyDict.keys d ++ [k])%list.
Proof.
  unfold PyDict.mem.
  induction d as [|[k0 v0] d IH]; simpl; auto.
  destruct (k =? k0) eqn:Hk; simpl; auto.
  rewrite IH. destruct (PyDict.get k d); auto.
Qed.

Lemma get_in_keys k d : PyDict.get k d <> None <-> In k (PyDict.keys d).
Proof.
  induction d as [|[k0 v0] d IH]; simpl.
  - tauto.
  - destruct (k =? k0) eqn:Hk.
    + apply String.eqb_eq in Hk. split; [auto | discriminate].
    + apply String.eqb_neq in Hk. rewrite IH. split; [auto | intros [?|?]; congruence].
Qed.

Lemma keys_set_nodup k v d :
  NoDup (PyDict.keys d) -> NoDup (PyDict.keys (PyDict.set k v d)).
Proof.
  intros Hnd. rewrite keys_set. unfold PyDict.mem.
  destruct (PyDict.get k d) eqn:Hg; auto.
  apply NoDup_app; auto.
  - constructor; [intros [] | constructor].
  - intros x Hx [Hk|[]]; subst x.
    apply get_in_keys in Hx. congruence.
Qed.

Lemma get_in_items k v d :
  NoDup (PyDict.keys d) -> (In (k, v) d <-> PyDict.get k d = Some v).
Proof.
  induction d as [|[k0 v0] d IH]; simpl; intros Hnd.
  - split; [tauto | discriminate].
  - inversion Hnd as [|? ? Hnotin Hnd']; subst.
    destruct (k =? k0) eqn:Hk.
    + apply String.eqb_eq in Hk; subst k0. split.
      * intros [Heq | Hin]; [congruence|].
        exfalso. apply Hnotin. apply (in_map fst) in Hin. exact Hin.
      * intros Heq; left; congruence.
    + apply String.eqb_neq in Hk. rewrite <- IH by assumption.
      split; [intros [Heq|?]; [congruence | assumption] | auto].
Qed.

End DictFacts.

Lemma mem_str_In x xs : mem_str x xs = true <-> In x xs.
Proof.
  unfold mem_str. rewrite existsb_exists. split.
  - intros [y [Hy Heq]]. apply String.eqb_eq in Heq. now subst.
  - intros H. exists x. split; [assumption | apply String.eqb_refl].
Qed.

Lemma mem_str_false x xs : mem_str x xs = false <-> ~ In x xs.
Proof.
  rewrite <- mem_str_In. destruct (mem_str x xs); split; congruence.
Qed.

Lemma mem_str_app x xs ys : mem_str x (xs ++ ys) = mem_str x xs || mem_str x ys.
Proof. unfold mem_str. apply existsb_app. Qed.

(* ================================================================= *)
(** ** The tables built by [get_execution_order] *)

Lemma node_tables_app l t :
  node_tables (l ++ [t]) =
  (PyDict.set (tool_id t) [] (fst (node_tables l)),
   PyDict.set (tool_id t) 0%Z (snd (node_tables l))).
Proof.
  unfold node_tables. rewrite fold_left_app. simpl.
  destruct (fold_left _ l _) as [g d]. reflexivity.
Qed.

Lemma node_tables_spec l :
  (forall k, PyDict.get k (fst (node_tables l)) =
             if mem_str k (map tool_id l) then Some [] else None) /\
  (forall k, PyDict.get k (snd (node_tables l)) =
             if mem_str k (map tool_id l) then Some 0%Z else None) /\
  NoDup (PyDict.keys (snd (node_tables l))).
Proof.
  induction l as [|t l IH] using rev_ind.
  - simpl. repeat split; auto. constructor.
  - destruct IH as (Hg & Hd & Hnd). rewrite node_tables_app. simpl.
    repeat split.
    + intros k. rewrite get_set, Hg, map_app, mem_str_app. simpl.
      destruct (k =? tool_id t); [now rewrite orb_true_r|].
      now rewrite orb_false_r.
    + intros k. rewrite get_set, Hd, map_app, mem_str_app. simpl.
      destruct (k =? tool_id t); [now rewrite orb_true_r|].
      now rewrite orb_false_r.
    + now apply keys_set_nodup.
Qed.

Lemma successors_app E1 E2 k :
  successors (E1 ++ E2) k = (successors E1 k ++ successors E2 k)%list.
Proof. unfold successors. now rewrite filter_app, map_app. Qed.

Lemma pending_app E1 E2 done k :
  pending (E1 ++ E2) done k = pending E1 done k + pending E2 done k.
Proof. unfold pending. now rewrite filter_app, length_app. Qed.

Section AddConnections.

Variable nodes : list string.
Variables (graph0 : dict (list string)) (in_degree0 : dict Z).
Hypothesis graph0_spec :
  forall k, PyDict.get k graph0 = if mem_str k nodes then Some [] else None.
Hypothesis in_degree0_spec :
  forall k, PyDict.get k in_degree0 = if mem_str k nodes then Some 0%Z else None.
Hypothesis in_degree0_nodup : NoDup (PyDict.keys in_degree0).

Lemma add_connections_spec conns :
  let tables := add_connections conns (graph0, in_degree0) in
  let E := filter (joins nodes) conns in
  (forall k, PyDict.get k (fst tables) =
             if mem_str k nodes then Some (successors E k) else None) /\
  (forall k, PyDict.get k (snd tables) =
             if mem_str k nodes then Some (Z.of_nat (pending E [] k)) else None) /\
  NoDup (PyDict.keys (snd tables)).
Proof.
  induction conns as [|c conns IH] using rev_ind.
  - simpl. repeat split; auto.
  - simpl in IH. destruct IH as (Hg & Hd & Hnd).
    cbv zeta. unfold add_connections in *. rewrite fold_left_app. simpl.
    destruct (fold_left _ conns (graph0, in_degree0)) as [g d] eqn:Hfold.
    simpl in Hg, Hd, Hnd. rewrite filter_app. simpl.
    assert (Hmem : forall k, PyDict.mem k g = mem_str k nodes).
    { intros k. unfold PyDict.mem. rewrite Hg. now destruct (mem_str k nodes). }
    rewrite !Hmem. fold (joins nodes c).
    destruct (joins nodes c) eqn:Hj.
    + unfold joins in Hj. apply andb_true_iff in Hj. destruct Hj as [Hs Hdst]. simpl.
      repeat split.
      * intros k. rewrite get_set, successors_app.
        unfold PyDict.get_default. rewrite (Hg (source c)), Hs.
        destruct (k =? source c) eqn:Hk.
        -- apply String.eqb_eq in Hk; subst k. rewrite Hs.
           unfold successors at 3. simpl. now rewrite String.eqb_refl.
        -- rewrite Hg. destruct (mem_str k nodes); auto.
           unfold successors at 3. simpl. rewrite String.eqb_sym, Hk. simpl.
           now rewrite app_nil_r.
      * intros k. rewrite get_set, pending_app.
        unfold PyDict.get_default. rewrite (Hd (destination c)), Hdst.
        destruct (k =? destination c) eqn:Hk.
        -- apply String.eqb_eq in Hk; subst k. rewrite Hdst.
           unfold pending at 3. simpl. rewrite String.eqb_refl. simpl.
           f_equal. lia.
        -- rewrite Hd. destruct (mem_str k nodes); auto.
           unfold pending at 3. simpl. rewrite String.eqb_sym, Hk. simpl.
           f_equal. lia.
      * now apply keys_set_nodup.
    + simpl. rewrite app_nil_r. repeat split; auto.
Qed.

End AddConnections.

(* ================================================================= *)
(** ** The inner loop of Kahn's algorithm *)

Lemma occurrences_nil k : occurrences k [] = 0.
Proof. reflexivity. Qed.

Lemma occurrences_pos k l : 0 < occurrences k l <-> In k l.
Proof. unfold occurrences. symmetry. apply count_occ_In. Qed.

Lemma occurrences_cons_eq k l : occurrences k (k :: l) = S (occurrences k l).
Proof. unfold occurrences. now apply count_occ_cons_eq. Qed.

Lemma occurrences_cons_neq k x l : x <> k -> occurrences k (x :: l) = occurrences k l.
Proof. unfold occurrences. intros. now apply count_occ_cons_neq. Qed.

(** The loop succeeds when every neighbour is a key; it subtracts from each
    entry the number of times the key occurs among the neighbours, and
    appends to the queue, once, exactly the keys whose entry passes through
    zero. *)
Lemma visit_neighbors_spec neighbors :
  forall (in_degree : dict Z) (queue : list string),
    (forall n, In n neighbors -> PyDict.get n in_degree <> None) ->
    exists in_degree' added,
      visit_neighbors neighbors in_degree queue = inr (in_degree', (queue ++ added)%list) /\
      (forall k, PyDict.get k in_degree' =
                 option_map (fun z => (z - Z.of_nat (occurrences k neighbors))%Z)
                            (PyDict.get k in_degree)) /\
      NoDup added /\
      (forall k, In k added <->
                 In k neighbors /\
                 exists z, PyDict.get k in_degree = Some z /\
                           (1 <= z <= Z.of_nat (occurrences k neighbors))%Z).
Proof.
  induction neighbors as [|x rest IH]; intros in_degree queue Hkeys.
  - exists in_degree, []. simpl. rewrite app_nil_r.
    split; [reflexivity|]. split; [|split].
    + intros k. destruct (PyDict.get k in_degree); simpl; f_equal; lia.
    + constructor.
    + intros k. simpl. tauto.
  - simpl. destruct (PyDict.get x in_degree) as [z|] eqn:Hx.
    2:{ exfalso. apply (Hkeys x); [now left | assumption]. }
    set (d1 := PyDict.set x (z - 1)%Z in_degree).
    assert (Hkeys1 : forall n, In n rest -> PyDict.get n d1 <> None).
    { intros n Hn. unfold d1. rewrite get_set.
      destruct (n =? x); [discriminate | apply Hkeys; now right]. }
    assert (Hd1 : forall k, PyDict.get k d1 =
              option_map (fun y => (y - Z.of_nat (occurrences k [x]))%Z)
                         (PyDict.get k in_degree)).
    { intros k. unfold d1. rewrite get_set. destruct (k =? x) eqn:Hk.
      - apply String.eqb_eq in Hk; subst k. rewrite Hx.
        rewrite occurrences_cons_eq, occurrences_nil. simpl. f_equal; lia.
      - apply String.eqb_neq in Hk.
        rewrite occurrences_cons_neq, occurrences_nil by congruence.
        destruct (PyDict.get k in_degree); simpl; f_equal; lia. }
    assert (Hocc : forall k, occurrences k (x :: rest) =
                             occurrences k [x] + occurrences k rest).
    { intros k. destruct (string_dec x k) as [->|Hne].
      - now rewrite !occurrences_cons_eq.
      - now rewrite !occurrences_cons_neq by assumption. }
    destruct (z - 1 =? 0)%Z eqn:Hz.
    + apply Z.eqb_eq in Hz.
      destruct (IH d1 (queue ++ [x])%list Hkeys1) as (d' & added & Hrun & Hget & Hnd & Hin).
      exists d', (x :: added). rewrite Hrun, <- app_assoc. simpl.
      assert (Hxnot : ~ In x added).
      { intros Hxa. apply Hin in Hxa. destruct Hxa as (_ & y & Hy & Hle).
        rewrite Hd1, Hx, occurrences_cons_eq, occurrences_nil in Hy. simpl in Hy.
        injection Hy as <-. lia. }
      split; [reflexivity|]. split; [|split; [|intros k; split; [intros Hk0; split|]]].
      * intros k. rewrite Hget, Hd1, Hocc.
        destruct (PyDict.get k in_degree); simpl; f_equal; lia.
      * now constructor.
      * destruct Hk0 as [<-|Hk].
        -- now left.
        -- right. now apply Hin.
      * destruct Hk0 as [<-|Hk].
        -- exists z. split; [assumption|]. rewrite occurrences_cons_eq. lia.
        -- apply Hin in Hk. destruct Hk as (_ & y & Hy & Hle).
           rewrite Hd1 in Hy. destruct (PyDict.get k in_degree) as [w|]; [|discriminate].
           simpl in Hy. injection Hy as <-. exists w. split; [reflexivity|].
           rewrite Hocc. lia.
      * intros ([<-|Hk] & w & Hw & Hle).
        -- now left.
        -- destruct (string_dec x k) as [->|Hne]; [now left|].
           right. apply Hin. split; [assumption|].
           exists w. rewrite Hd1, Hw.
           rewrite !occurrences_cons_neq in * by assumption.
           rewrite occurrences_nil. simpl.
           split; [f_equal; lia | assumption].
    + apply Z.eqb_neq in Hz.
      destruct (IH d1 queue Hkeys1) as (d' & added & Hrun & Hget & Hnd & Hin).
      exists d', added. rewrite Hrun.
      split; [reflexivity|]. split; [|split; [|intros k; split; [intros Hk; split|]]].
      * intros k. rewrite Hget, Hd1, Hocc.
        destruct (PyDict.get k in_degree); simpl; f_equal; lia.
      * assumption.
      * apply Hin in Hk. right. tauto.
      * apply Hin in Hk. destruct Hk as (_ & y & Hy & Hle).
        rewrite Hd1 in Hy. destruct (PyDict.get k in_degree) as [w|]; [|discriminate].
        simpl in Hy. injection Hy as <-. exists w. split; [reflexivity|].
        rewrite Hocc. lia.
      * intros (Hk & w & Hw & Hle). apply Hin.
        destruct (string_dec x k) as [->|Hne].
        -- rewrite Hx in Hw. injection Hw as <-.
           rewrite occurrences_cons_eq in Hle.
           assert (Hpos : 0 < occurrences k rest) by lia.
           split; [now apply occurrences_pos|].
           exists (z - 1)%Z. rewrite Hd1, Hx, occurrences_cons_eq, occurrences_nil.
           simpl. split; [f_equal; lia | lia].
        -- destruct Hk as [?|Hk]; [congruence|]. split; [assumption|].
           exists w. rewrite Hd1, Hw.
           rewrite !occurrences_cons_neq in * by assumption.
           rewrite occurrences_nil. simpl.
           split; [f_equal; lia | assumption].
Qed.

(* ================================================================= *)
(** ** Positions in a list *)

Lemma index_of_In x l : In x l <-> exists i, index_of x l = Some i.
Proof.
  induction l as [|y l IH]; simpl.
  - split; [tauto | intros [i Hi]; discriminate].
  - destruct (x =? y) eqn:Hxy.
    + apply String.eqb_eq in Hxy. split; [eauto | auto].
    + apply String.eqb_neq in Hxy. rewrite IH. split.
      * intros [Heq | [i Hi]]; [congruence|]. rewrite Hi. simpl. eauto.
      * intros [i Hi]. right. destruct (index_of x l); [eauto | discriminate].
Qed.

Lemma index_of_bound x l i : index_of x l = Some i -> i < List.length l.
Proof.
  revert i. induction l as [|y l IH]; simpl; intros i Hi; [discriminate|].
  destruct (x =? y).
  - injection Hi as <-. lia.
  - destruct (index_of x l) as [j|]; [|discriminate].
    simpl in Hi. injection Hi as <-. specialize (IH j eq_refl). lia.
Qed.

Lemma index_of_app_l x l1 l2 i :
  index_of x l1 = Some i -> index_of x (l1 ++ l2) = Some i.
Proof.
  revert i. induction l1 as [|y l1 IH]; simpl; intros i Hi; [discriminate|].
  destruct (x =? y); [assumption|].
  destruct (index_of x l1) as [j|]; [|discriminate].
  now rewrite (IH j eq_refl).
Qed.

Lemma index_of_app_r x l1 l2 :
  ~ In x l1 ->
  index_of x (l1 ++ l2) = option_map (fun i => List.length l1 + i) (index_of x l2).
Proof.
  induction l1 as [|y l1 IH]; simpl; intros Hnot.
  - destruct (index_of x l2); reflexivity.
  - destruct (x =? y) eqn:Hxy.
    + apply String.eqb_eq in Hxy. exfalso. auto.
    + rewrite IH by tauto. destruct (index_of x l2); reflexivity.
Qed.

Lemma before_app_l a b l1 l2 : before a b l1 -> before a b (l1 ++ l2).
Proof.
  intros (i & j & Hi & Hj & Hlt). exists i, j.
  repeat split; auto using index_of_app_l.
Qed.

Lemma before_snoc a b l : In a l -> ~ In b l -> before a b (l ++ [b]).
Proof.
  intros Ha Hb. apply index_of_In in Ha. destruct Ha as [i Hi].
  exists i, (List.length l + 0). split; [now apply index_of_app_l|]. split.
  - rewrite index_of_app_r by assumption. simpl. now rewrite String.eqb_refl.
  - apply index_of_bound in Hi. lia.
Qed.

(* ================================================================= *)
(** ** The outer loop of Kahn's algorithm *)

Lemma pending_snoc E done node k :
  ~ In node done ->
  pending E done k =
  pending E (done ++ [node]) k + occurrences k (successors E node).
Proof.
  intros Hnode. unfold pending, successors.
  induction E as [|c E IH]; simpl; [reflexivity|].
  rewrite mem_str_app. simpl. rewrite orb_false_r.
  destruct (destination c =? k) eqn:Hd; simpl.
  - apply String.eqb_eq in Hd.
    destruct (mem_str (source c) done) eqn:Hs; simpl.
    + destruct (source c =? node) eqn:Hsn.
      * apply String.eqb_eq in Hsn. apply mem_str_In in Hs. congruence.
      * exact IH.
    + destruct (source c =? node) eqn:Hsn; simpl.
      * rewrite Hd, occurrences_cons_eq. lia.
      * lia.
  - destruct (source c =? node) eqn:Hsn; simpl; [|exact IH].
    apply String.eqb_neq in Hd. now rewrite occurrences_cons_neq.
Qed.

Lemma pending_zero E done k :
  pending E done k = 0 ->
  forall c, In c E -> destination c = k -> In (source c) done.
Proof.
  unfold pending. intros Hz c Hc Hd.
  destruct (mem_str (source c) done) eqn:Hs; [now apply mem_str_In|].
  assert (Hin : In c (filter (fun c => (destination c =? k) && negb (mem_str (source c) done)) E)).
  { apply filter_In. split; [assumption|]. rewrite Hs, Hd, String.eqb_refl. reflexivity. }
  destruct (filter _ E); [destruct Hin | discriminate].
Qed.

Lemma pending_pos E done k :
  pending E done k <> 0 ->
  exists c, In c E /\ destination c = k /\ ~ In (source c) done.
Proof.
  unfold pending. intros Hnz.
  destruct (filter _ E) as [|c l] eqn:Hf; [now simpl in Hnz|].
  assert (Hin : In c (c :: l)) by now left.
  rewrite <- Hf in Hin. apply filter_In in Hin. destruct Hin as [Hc Hb].
  apply andb_true_iff in Hb. destruct Hb as [Hd Hs].
  exists c. split; [assumption|]. split; [now apply String.eqb_eq|].
  apply mem_str_false. now destruct (mem_str (source c) done).
Qed.

Section Kahn.

Variable nodes : list string.
Variable E : list Connection.
Variable graph : dict (list string).

Hypothesis E_nodes :
  forall c, In c E -> In (source c) nodes /\ In (destination c) nodes.
Hypothesis graph_spec :
  forall k, PyDict.get k graph = if mem_str k nodes then Some (successors E k) else None.

Lemma successors_nodes k n : In n (successors E k) -> In n nodes.
Proof.
  unfold successors. intros Hn. apply in_map_iff in Hn.
  destruct Hn as (c & <- & Hc). apply filter_In in Hc. now apply E_nodes.
Qed.

Lemma kahn_step in_degree node queue result :
  kahn_inv nodes E in_degree (node :: queue) result ->
  exists in_degree' queue',
    visit_neighbors (PyDict.get_default node [] graph) in_degree queue
      = inr (in_degree', queue') /\
    kahn_inv nodes E in_degree' queue' (result ++ [node]).
Proof.
  intros [Hdeg Hnd Hready Hord].
  assert (Hnode : In node nodes).
  { apply (Hready node). apply in_or_app. right. now left. }
  assert (Hfresh : ~ In node result).
  { intros Hin. apply NoDup_remove_2 in Hnd. apply Hnd.
    apply in_or_app. now left. }
  assert (Hzero : pending E result node = 0).
  { apply (Hready node). apply in_or_app. right. now left. }
  unfold PyDict.get_default. rewrite graph_spec.
  apply mem_str_In in Hnode as Hnode_b. rewrite Hnode_b.
  destruct (visit_neighbors_spec (successors E node) in_degree queue)
    as (d' & added & Hrun & Hget & Hadd_nd & Hadd).
  { intros n Hn. rewrite Hdeg.
    apply successors_nodes, mem_str_In in Hn. now rewrite Hn. }
  exists d', (queue ++ added)%list. split; [assumption|].
  assert (Hpend : forall k, pending E result k =
            pending E (result ++ [node]) k + occurrences k (successors E node)).
  { intros k. now apply pending_snoc. }
  assert (Hadded : forall k, In k added <->
            In k nodes /\ pending E result k <> 0 /\ pending E (result ++ [node]) k = 0).
  { intros k. rewrite Hadd. split.
    - intros (Hk & z & Hz & Hle). rewrite Hdeg in Hz.
      pose proof (successors_nodes _ _ Hk) as Hkn.
      apply mem_str_In in Hkn as Hkb. rewrite Hkb in Hz. injection Hz as <-.
      specialize (Hpend k). split; [assumption|]. lia.
    - intros (Hkn & Hnz & Hz). specialize (Hpend k). split.
      + apply occurrences_pos. lia.
      + exists (Z.of_nat (pending E result k)). rewrite Hdeg.
        apply mem_str_In in Hkn. rewrite Hkn. split; [reflexivity | lia]. }
  assert (Hshape : ((result ++ [node]) ++ queue ++ added
                    = (result ++ node :: queue) ++ added)%list).
  { rewrite <- !app_assoc. reflexivity. }
  constructor.
  - intros k. rewrite Hget, Hdeg. destruct (mem_str k nodes); [|reflexivity].
    simpl. f_equal. specialize (Hpend k). lia.
  - rewrite Hshape. apply NoDup_app.
    + assumption.
    + assumption.
    + intros k Hk Hka. apply Hadded in Hka. apply Hready in Hk. lia.
  - intros k. rewrite Hshape, in_app_iff.
    rewrite Hready, Hadded. specialize (Hpend k).
    split.
    + intros [[Hk Hz] | (Hk & _ & Hz)]; split; auto. lia.
    + intros [Hk Hz]. destruct (Nat.eq_dec (pending E result k) 0); [left | right]; auto.
  - intros c Hc Hin. apply in_app_or in Hin. destruct Hin as [Hin | [Heq | []]].
    + apply before_app_l. now apply Hord.
    + rewrite <- Heq. apply before_snoc; [|assumption].
      now apply (pending_zero E result node Hzero).
Qed.

Lemma kahn_inv_bound in_degree queue result :
  kahn_inv nodes E in_degree queue result ->
  List.length (result ++ queue) <= List.length nodes.
Proof.
  intros [_ Hnd Hready _]. apply NoDup_incl_length; [assumption|].
  intros k Hk. now apply Hready.
Qed.

(** With one unit of fuel per node still to schedule, the loop ends
    normally in a state that satisfies the invariant with an empty queue. *)
Lemma kahn_loop_spec fuel :
  forall in_degree queue result,
    kahn_inv nodes E in_degree queue result ->
    List.length nodes <= List.length result + fuel ->
    exists order in_degree',
      kahn_loop fuel graph in_degree queue result = Some (inr order) /\
      kahn_inv nodes E in_degree' [] order.
Proof.
  induction fuel as [|fuel IH]; intros in_degree queue result Hinv Hfuel.
  - pose proof (kahn_inv_bound _ _ _ Hinv) as Hb. rewrite length_app in Hb.
    destruct queue as [|node queue]; [|simpl in Hb; lia].
    exists result, in_degree. split; [reflexivity | assumption].
  - destruct queue as [|node queue].
    + exists result, in_degree. split; [reflexivity | assumption].
    + destruct (kahn_step _ _ _ _ Hinv) as (d' & q' & Hrun & Hinv').
      simpl. rewrite Hrun. apply IH; [assumption|].
      rewrite length_app. simpl. lia.
Qed.

End Kahn.

(* ================================================================= *)
(** ** [get_execution_order] as a whole *)

Lemma initial_queue_In (d : dict Z) k :
  NoDup (PyDict.keys d) ->
  (In k (initial_queue d) <-> PyDict.get k d = Some 0%Z).
Proof.
  intros Hnd. rewrite <- (get_in_items k 0%Z d Hnd).
  unfold initial_queue, PyDict.items. rewrite in_map_iff. split.
  - intros ([k' z] & Hk & Hin). simpl in Hk. subst k'.
    apply filter_In in Hin. destruct Hin as [Hin Hz]. simpl in Hz.
    apply Z.eqb_eq in Hz. now subst z.
  - intros Hin. exists (k, 0%Z). split; [reflexivity|].
    apply filter_In. split; [assumption | reflexivity].
Qed.

Lemma initial_queue_nodup (d : dict Z) :
  NoDup (PyDict.keys d) -> NoDup (initial_queue d).
Proof.
  unfold initial_queue, PyDict.items, PyDict.keys.
  induction d as [|[k z] d IH]; simpl; intros Hnd; [constructor|].
  inversion Hnd as [|? ? Hnotin Hnd']; subst.
  destruct (z =? 0)%Z; simpl; [|now apply IH].
  constructor; [|now apply IH].
  intros Hin. apply Hnotin. apply in_map_iff in Hin.
  destruct Hin as (item & Hfst & Hin). apply filter_In in Hin.
  apply in_map_iff. exists item. tauto.
Qed.

Lemma valid_edges_nodes self c :
  In c (valid_edges self) ->
  In (source c) (ids self) /\ In (destination c) (ids self).
Proof.
  unfold valid_edges, joins. intros Hc. apply filter_In in Hc.
  destruct Hc as [_ Hb]. apply andb_true_iff in Hb.
  now rewrite !mem_str_In in Hb.
Qed.

(** The call returns a list, and the loop invariant holds of it with an
    empty queue. *)
Lemma get_execution_order_spec self :
  exists order in_degree,
    get_execution_order self = Some (inr order) /\
    kahn_inv (ids self) (valid_edges self) in_degree [] order.
Proof.
  unfold get_execution_order.
  destruct (node_tables_spec (tools self)) as (Hg0 & Hd0 & Hnd0).
  destruct (node_tables (tools self)) as [g0 d0] eqn:Htab. simpl in Hg0, Hd0, Hnd0.
  destruct (add_connections_spec (ids self) g0 d0 Hg0 Hd0 Hnd0 (connections self))
    as (Hg & Hd & Hnd).
  fold (valid_edges self) in Hg, Hd.
  destruct (add_connections (connections self) (g0, d0)) as [g d]. simpl in Hg, Hd, Hnd.
  apply (kahn_loop_spec (ids self) (valid_edges self) g).
  - apply valid_edges_nodes.
  - exact Hg.
  - constructor.
    + exact Hd.
    + simpl. now apply initial_queue_nodup.
    + intros k. simpl. rewrite initial_queue_In, Hd by assumption.
      destruct (mem_str k (ids self)) eqn:Hk.
      * apply mem_str_In in Hk. split.
        -- intros Heq. injection Heq as Heq. split; [assumption | lia].
        -- intros [_ Hz]. now rewrite Hz.
      * apply mem_str_false in Hk. split; [discriminate | tauto].
    + intros c _ [].
  - simpl. unfold ids. rewrite length_map. lia.
Qed.

(** What the final invariant says of the returned order. *)
Lemma order_facts self order in_degree :
  kahn_inv (ids self) (valid_edges self) in_degree [] order ->
  NoDup order /\
  (forall k, In k order <-> In k (ids self) /\ pending (valid_edges self) order k = 0) /\
  ordered (valid_edges self) order.
Proof.
  intros [_ Hnd Hready Hord]. rewrite app_nil_r in Hnd.
  split; [assumption|]. split; [|assumption].
  intros k. rewrite <- Hready, app_nil_r. tauto.
Qed.

(* ================================================================= *)
(** ** Cycles and the length of the order *)

Lemma before_irrefl a l : ~ before a a l.
Proof. intros (i & j & Hi & Hj & Hlt). rewrite Hi in Hj. injection Hj as <-. lia. Qed.

Lemma before_trans a b c l : before a b l -> before b c l -> before a c l.
Proof.
  intros (i & j & Hi & Hj & Hij) (j' & k & Hj' & Hk & Hjk).
  rewrite Hj in Hj'. injection Hj' as <-.
  exists i, k. repeat split; auto. lia.
Qed.

Section OrderAndCycles.

Variable self : Parser.
Variable order : list string.
Variable in_degree : dict Z.
Hypothesis final : kahn_inv (ids self) (valid_edges self) in_degree [] order.

Lemma order_nodup : NoDup order.
Proof. now destruct (order_facts _ _ _ final). Qed.

Lemma order_ready k :
  In k order <-> In k (ids self) /\ pending (valid_edges self) order k = 0.
Proof. destruct (order_facts _ _ _ final) as (_ & H & _). apply H. Qed.

Lemma order_ordered : ordered (valid_edges self) order.
Proof. now destruct (order_facts _ _ _ final) as (_ & _ & H). Qed.

Lemma order_incl : incl order (distinct_ids self).
Proof. intros k Hk. apply nodup_In. now apply order_ready. Qed.

Lemma order_length_distinct : List.length order <= List.length (distinct_ids self).
Proof. apply NoDup_incl_length; [apply order_nodup | apply order_incl]. Qed.

Lemma distinct_ids_length : List.length (distinct_ids self) <= List.length (tools self).
Proof.
  unfold distinct_ids. rewrite <- (length_map tool_id (tools self)).
  apply NoDup_incl_length; [apply NoDup_nodup|].
  intros k Hk. now apply nodup_In in Hk.
Qed.

(** When every id is scheduled, a path of the graph goes forward in the
    order. *)
Lemma path_before a b :
  incl (ids self) order ->
  clos_trans string (edge self) a b -> before a b order.
Proof.
  intros Hall Hpath. induction Hpath as [a b (c & Hc & <- & <-) | a b c _ IH1 _ IH2].
  - apply order_ordered; [assumption|].
    apply Hall. now apply valid_edges_nodes.
  - eapply before_trans; eassumption.
Qed.

(** A node left out has a predecessor left out. *)
Lemma unscheduled_predecessor k :
  In k (ids self) -> ~ In k order ->
  exists s, In s (ids self) /\ ~ In s order /\ edge self s k.
Proof.
  intros Hk Hout.
  destruct (pending_pos (valid_edges self) order k) as (c & Hc & Hd & Hs).
  { intros Hz. apply Hout. apply order_ready. tauto. }
  exists (source c). split; [now apply valid_edges_nodes|]. split; [assumption|].
  exists c. auto.
Qed.

(** In an acyclic graph a node left out would have ancestors without end. *)
Lemma unscheduled_ancestors n :
  acyclic self ->
  forall k, In k (ids self) -> ~ In k order ->
  exists l, List.length l = n /\ NoDup l /\
            forall x, In x l -> In x (ids self) /\ clos_trans string (edge self) x k.
Proof.
  intros Hacyc. induction n as [|n IH]; intros k Hk Hout.
  - exists []. split; [reflexivity|]. split; [constructor | intros x []].
  - destruct (unscheduled_predecessor k Hk Hout) as (s & Hs & Hsout & Hedge).
    destruct (IH s Hs Hsout) as (l & Hlen & Hnd & Hl).
    exists (s :: l). split; [simpl; now rewrite Hlen|]. split.
    + constructor; [|assumption].
      intros Hin. apply (Hacyc s). now apply Hl.
    + intros x [<-|Hx].
      * split; [assumption | now apply t_step].
      * destruct (Hl x Hx) as [Hxi Hxs]. split; [assumption|].
        eapply t_trans; [eassumption | now apply t_step].
Qed.

Lemma acyclic_all_scheduled : acyclic self -> incl (ids self) order.
Proof.
  intros Hacyc k Hk.
  destruct (in_dec string_dec k order) as [Hin|Hout]; [assumption|].
  exfalso.
  destruct (unscheduled_ancestors (S (List.length (distinct_ids self))) Hacyc k Hk Hout)
    as (l & Hlen & Hnd & Hl).
  assert (Hle : List.length l <= List.length (distinct_ids self)).
  { apply NoDup_incl_length; [assumption|].
    intros x Hx. apply nodup_In. now apply Hl. }
  lia.
Qed.

Lemma all_scheduled_acyclic : incl (ids self) order -> acyclic self.
Proof.
  intros Hall n Hcycle. apply (before_irrefl n order). now apply path_before.
Qed.

Lemma full_length_iff_all_scheduled :
  List.length order = List.length (distinct_ids self) <-> incl (ids self) order.
Proof.
  split.
  - intros Hlen k Hk.
    apply (NoDup_length_incl order_nodup (l' := distinct_ids self)).
    + lia.
    + apply order_incl.
    + now apply nodup_In.
  - intros Hall. apply Nat.le_antisymm; [apply order_length_distinct|].
    apply NoDup_incl_length; [apply NoDup_nodup|].
    intros k Hk. apply Hall. now apply nodup_In in Hk.
Qed.

Lemma full_length_iff_acyclic :
  List.length order = List.length (distinct_ids self) <-> acyclic self.
Proof.
  rewrite full_length_iff_all_scheduled.
  split; [apply all_scheduled_acyclic | apply acyclic_all_scheduled].
Qed.

Lemma distinct_ids_full :
  List.length (distinct_ids self) = List.length (tools self) <-> NoDup (ids self).
Proof.
  unfold distinct_ids. rewrite <- (length_map tool_id (tools self)). fold (ids self).
  split.
  - intros Hlen. apply (NoDup_incl_NoDup (l := nodup string_dec (ids self))).
    + apply NoDup_nodup.
    + lia.
    + intros k Hk. now apply nodup_In in Hk.
  - intros Hnd. now rewrite nodup_fixed_point.
Qed.

End OrderAndCycles.

(* ================================================================= *)
(** ** Execution order: the claims *)

(** C2.  For a connection of the workflow whose source and destination are
    ids of parsed tools, [get_execution_order] returns a sequence in which,
    when both ends appear, the first position of the source is strictly
    less than the first position of the destination. *)
Theorem execution_order_topological (self : Parser) (conn : Connection) :
  In conn (connections self) ->
  In (source conn) (ids self) ->
  In (destination conn) (ids self) ->
  exists order,
    get_execution_order self = Some (inr order) /\
    (In (source conn) order -> In (destination conn) order ->
     exists i j,
       index_of (source conn) order = Some i /\
       index_of (destination conn) order = Some j /\
       i < j).
Proof.
  intros Hconn Hs Hd.
  destruct (get_execution_order_spec self) as (order & in_degree & Hrun & Hinv).
  exists order. split; [assumption|]. intros _ Hdo.
  apply (order_ordered self order in_degree Hinv conn); [|assumption].
  unfold valid_edges. apply filter_In. split; [assumption|].
  unfold joins. apply andb_true_iff. now rewrite !mem_str_In.
Qed.

Lemma execution_order_topological_witness :
  exists order,
    get_execution_order Samples.chain_parser = Some (inr order) /\
    (In "1" order -> In "2" order ->
     exists i j, index_of "1" order = Some i /\ index_of "2" order = Some j /\ i < j).
Proof.
  apply (execution_order_topological Samples.chain_parser (mkConnection "Output" "1" "2"));
    vm_compute; auto.
Defined.

Lemma no_edges_acyclic self : valid_edges self = [] -> acyclic self.
Proof.
  intros Hnone n Hpath.
  assert (Hno : forall a b, ~ edge self a b).
  { intros a b (c & Hc & _). rewrite Hnone in Hc. destruct Hc. }
  induction Hpath as [a b Hedge | a b c _ IH _ _]; [now apply (Hno a b) | exact IH].
Qed.

(** C3, as the code has it.  [get_execution_order] always returns a list,
    never raises, also when the graph has a cycle; the list is no longer
    than the list of tools; it has one entry per distinct tool id exactly
    when the graph induced on the known ids is acyclic; and it is as long
    as the list of tools exactly when, moreover, no two tools share an
    id. *)
Theorem execution_order_length (self : Parser) :
  exists order,
    get_execution_order self = Some (inr order) /\
    List.length order <= List.length (tools self) /\
    (List.length order = List.length (distinct_ids self) <-> acyclic self) /\
    (List.length order = List.length (tools self) <->
     NoDup (ids self) /\ acyclic self).
Proof.
  destruct (get_execution_order_spec self) as (order & in_degree & Hrun & Hinv).
  exists order. split; [assumption|].
  pose proof (order_length_distinct self order in_degree Hinv) as Hle1.
  pose proof (distinct_ids_length self) as Hle2.
  pose proof (full_length_iff_acyclic self order in_degree Hinv) as Hacyc.
  pose proof (distinct_ids_full self) as Hfull.
  split; [lia|]. split; [assumption|]. split.
  - intros Hlen. split.
    + apply Hfull. lia.
    + apply Hacyc. lia.
  - intros [Hnd Hac]. apply Hfull in Hnd. apply Hacyc in Hac. lia.
Qed.

(** C3 fails as stated: a document with two nodes of the same id gives a
    workflow of two tools without any cycle, and an order of length one. *)
Lemma duplicate_ids_shorten_order :
  fst (parse (WellFormed Samples.duplicate_document) init) = true /\
  get_execution_order Samples.duplicate_parser = Some (inr ["1"]) /\
  ~ (List.length ["1"] = List.length (tools Samples.duplicate_parser) <->
     acyclic Samples.duplicate_parser).
Proof.
  split; [reflexivity|]. split; [reflexivity|].
  intros [_ Hback].
  assert (Hac : acyclic Samples.duplicate_parser) by (apply no_edges_acyclic; reflexivity).
  specialize (Hback Hac). discriminate Hback.
Qed.

(* ================================================================= *)
(** ** The tool-type classifier: the claims *)

Lemma mem_keys {V} k (d : dict V) : PyDict.mem k d = true <-> In k (PyDict.keys d).
Proof.
  rewrite <- get_in_keys. unfold PyDict.mem.
  destruct (PyDict.get k d); split; congruence.
Qed.

(** C4.  A configuration with the key [File] and no output marker is
    classified [input_data], hence not [unknown]; with the key [File] and
    an output marker it is classified [output_data]. *)
Theorem file_reference_classification (plugin macro : string) (config : dict PyVal) :
  In "File" (PyDict.keys config) ->
  (~ output_marker config ->
   _identify_tool_type plugin macro config = "input_data" /\
   _identify_tool_type plugin macro config <> "unknown") /\
  (output_marker config ->
   _identify_tool_type plugin macro config = "output_data").
Proof.
  intros Hfile. apply mem_keys in Hfile.
  unfold _identify_tool_type. rewrite Hfile.
  destruct (PyDict.mem "FileName_Out" config
            || existsb (fun k => PyStr.contains "output" (PyStr.lower k))
                       (PyDict.keys config)) eqn:Hout.
  - split; [|reflexivity].
    intros Hno. exfalso. apply Hno.
    apply orb_true_iff in Hout. destruct Hout as [Hk | Hex].
    + left. now apply mem_keys.
    + right. apply existsb_exists in Hex. exact Hex.
  - split; [intros _; split; [reflexivity | discriminate]|].
    intros Hm. apply orb_false_iff in Hout. destruct Hout as [Hk Hex].
    destruct Hm as [Hin | (k & Hin & Hc)].
    + apply mem_keys in Hin. congruence.
    + assert (Hex' : existsb (fun k => PyStr.contains "output" (PyStr.lower k))
                             (PyDict.keys config) = true).
      { apply existsb_exists. eauto. }
      congruence.
Qed.

Lemma file_reference_classification_witness :
  (~ output_marker [("File", VStr "a.csv")] ->
   _identify_tool_type "" "" [("File", VStr "a.csv")] = "input_data" /\
   _identify_tool_type "" "" [("File", VStr "a.csv")] <> "unknown") /\
  (output_marker [("File", VStr "a.csv")] ->
   _identify_tool_type "" "" [("File", VStr "a.csv")] = "output_data").
Proof.
  apply (file_reference_classification "" "" [("File", VStr "a.csv")]).
  simpl. auto.
Defined.

Lemma find_first {A} (f : A -> bool) (earlier later : list A) (x : A) :
  (forall y, In y earlier -> f y = false) -> f x = true ->
  List.find f (earlier ++ x :: later) = Some x.
Proof.
  intros Hearlier Hx. induction earlier as [|y earlier IH]; simpl.
  - now rewrite Hx.
  - rewrite (Hearlier y) by now left. apply IH. intros z Hz. apply Hearlier. now right.
Qed.

Lemma engine_family_first_marker plugin macro config :
  PyDict.mem "File" config = false ->
  PyStr.contains "AlteryxBasePluginsEngine" plugin = true ->
  forall tag,
    first_marker (PyStr.lower (dict_str config)) = Some tag ->
    _identify_tool_type plugin macro config = tag.
Proof.
  intros Hfile Hplugin tag. unfold _identify_tool_type. rewrite Hfile, Hplugin.
  generalize (PyStr.lower (dict_str config)). intros text.
  unfold first_marker, engine_markers, marker_present. simpl.
  destruct (PyStr.contains "filter" text); simpl; [intros [= <-]; reflexivity|].
  destruct (PyStr.contains "join" text); simpl; [intros [= <-]; reflexivity|].
  destruct (PyStr.contains "sort" text); simpl; [intros [= <-]; reflexivity|].
  destruct (PyStr.contains "summarize" text); simpl; [intros [= <-]; reflexivity|].
  destruct (PyStr.contains "groupby" text); simpl; [intros [= <-]; reflexivity|].
  destruct (PyStr.contains "formula" text); simpl; [intros [= <-]; reflexivity|].
  destruct (PyStr.contains "select" text); simpl; [intros [= <-]; reflexivity|].
  destruct (PyStr.contains "unique" text); simpl; [intros [= <-]; reflexivity|].
  destruct (PyStr.contains "sample" text); simpl; [intros [= <-]; reflexivity|].
  destruct (PyStr.contains "recordid" text); simpl; [intros [= <-]; reflexivity|].
  discriminate.
Qed.

(** C5.  Without the key [File] and with a plugin of the engine family, the
    classifier returns the tag of the first marker, in the order filter,
    join, sort, summarize/groupby, formula, select, unique, sample,
    recordid, that the lower-cased [str(config)] contains: a marker wins
    over every marker that comes later in the order, whatever else the text
    contains. *)
Theorem engine_family_precedence (plugin macro : string) (config : dict PyVal)
        (earlier later : list (list string * string)) (markers : list string)
        (tag : string) :
  ~ In "File" (PyDict.keys config) ->
  PyStr.contains "AlteryxBasePluginsEngine" plugin = true ->
  engine_markers = (earlier ++ (markers, tag) :: later)%list ->
  (exists marker, In marker markers /\
                  PyStr.contains marker (PyStr.lower (dict_str config)) = true) ->
  (forall entry marker, In entry earlier -> In marker (fst entry) ->
                        PyStr.contains marker (PyStr.lower (dict_str config)) = false) ->
  first_marker (PyStr.lower (dict_str config)) = Some tag /\
  _identify_tool_type plugin macro config = tag.
Proof.
  intros Hfile Hplugin Hsplit (marker & Hin & Hpresent) Hearlier.
  assert (Hfirst : first_marker (PyStr.lower (dict_str config)) = Some tag).
  { unfold first_marker. rewrite Hsplit.
    rewrite (find_first _ earlier later (markers, tag)); [reflexivity | |].
    - intros entry Hentry. unfold marker_present.
      destruct (existsb _ (fst entry)) eqn:Hex; [|reflexivity].
      apply existsb_exists in Hex. destruct Hex as (m & Hm & Hc).
      rewrite (Hearlier entry m Hentry Hm) in Hc. discriminate.
    - unfold marker_present. apply existsb_exists. simpl. eauto. }
  split; [assumption|].
  apply engine_family_first_marker; try assumption.
  rewrite <- mem_keys in Hfile. now destruct (PyDict.mem "File" config).
Qed.

Lemma engine_family_precedence_witness :
  first_marker (PyStr.lower (dict_str [("SortInfo", VStr "Name"); ("Mode", VStr "Join by field")]))
    = Some "join" /\
  _identify_tool_type "AlteryxBasePluginsEngine.dll" ""
    [("SortInfo", VStr "Name"); ("Mode", VStr "Join by field")] = "join".
Proof.
  apply (engine_family_precedence "AlteryxBasePluginsEngine.dll" ""
           [("SortInfo", VStr "Name"); ("Mode", VStr "Join by field")]
           [(["filter"], "filter")]
           [ (["sort"], "sort"); (["summarize"; "groupby"], "summarize");
             (["formula"], "formula"); (["select"], "select"); (["unique"], "unique");
             (["sample"], "sample"); (["recordid"], "record_id") ]
           ["join"] "join").
  - simpl. intros [H|[H|[]]]; discriminate.
  - reflexivity.
  - reflexivity.
  - exists "join". split; [now left | reflexivity].
  - intros entry marker [<-|[]] [<-|[]]. reflexivity.
Defined.

(* ================================================================= *)
(** ** Configuration extraction: the claim *)








(* ================================================================= *)
(** ** The read accessors: the claim *)

Lemma find_tool_some ts id t :
  find_tool ts id = Some t <->
  exists earlier later,
    ts = (earlier ++ t :: later)%list /\ tool_id t = id /\
    forall u, In u earlier -> tool_id u <> id.
Proof.
  induction ts as [|u ts IH]; simpl.
  - split; [discriminate|]. intros (earlier & later & Heq & _).
    destruct earlier; discriminate.
  - destruct (tool_id u =? id) eqn:Hu.
    + apply String.eqb_eq in Hu. split.
      * intros [= <-]. exists [], ts. repeat split; auto; intros v [].
      * intros (earlier & later & Heq & Hid & Hnone).
        destruct earlier as [|v earlier]; simpl in Heq.
        -- congruence.
        -- injection Heq as <- _. exfalso. apply (Hnone u); [now left | assumption].
    + apply String.eqb_neq in Hu. rewrite IH. split.
      * intros (earlier & later & -> & Hid & Hnone).
        exists (u :: earlier), later. split; [reflexivity|]. split; [assumption|].
        intros v [<- | Hv]; auto.
      * intros (earlier & later & Heq & Hid & Hnone).
        destruct earlier as [|v earlier]; simpl in Heq.
        -- injection Heq as -> _. contradiction.
        -- injection Heq as <- ->. exists earlier, later.
           split; [reflexivity|]. split; [assumption|].
           intros w Hw. apply Hnone. now right.
Qed.

Lemma find_tool_none ts id :
  find_tool ts id = None <-> forall t, In t ts -> tool_id t <> id.
Proof.
  induction ts as [|u ts IH]; simpl.
  - split; [intros _ t [] | reflexivity].
  - destruct (tool_id u =? id) eqn:Hu.
    + apply String.eqb_eq in Hu. split; [discriminate|].
      intros Hnone. exfalso. apply (Hnone u); [now left | assumption].
    + apply String.eqb_neq in Hu. rewrite IH. split.
      * intros Hnone t [<- | Ht]; auto.
      * intros Hnone t Ht. apply Hnone. now right.
Qed.

Lemma collect_fold {A} (keep : A -> bool) (pick : A -> string) (l : list A) :
  forall acc,
    fold_left (fun acc x => if keep x then (acc ++ [pick x])%list else acc) l acc =
    (acc ++ map pick (filter keep l))%list.
Proof.
  induction l as [|x l IH]; intros acc; simpl.
  - now rewrite app_nil_r.
  - rewrite IH. destruct (keep x); [|reflexivity].
    simpl. now rewrite <- app_assoc.
Qed.

(** C9.  For every id, [get_tool_by_id] returns the first tool of the list
    with that id, and [None] exactly when no tool has it;
    [get_source_tools] and [get_destination_tools] return the other ends of
    the connections that end, respectively start, at the id, in the order
    of the connection list.  The three are total: there is no id on which
    they raise. *)
Theorem accessors_total (self : Parser) (id : string) :
  (forall t, get_tool_by_id self id = Some t <->
             exists earlier later,
               tools self = (earlier ++ t :: later)%list /\ tool_id t = id /\
               forall u, In u earlier -> tool_id u <> id) /\
  (get_tool_by_id self id = None <-> ~ In id (ids self)) /\
  get_source_tools self id =
    map source (filter (fun conn => destination conn =? id) (connections self)) /\
  get_destination_tools self id =
    map destination (filter (fun conn => source conn =? id) (connections self)).
Proof.
  split; [|split; [|split]].
  - intros t. apply find_tool_some.
  - unfold get_tool_by_id, ids. rewrite find_tool_none, in_map_iff. split.
    + intros Hnone (t & Hid & Ht). now apply (Hnone t).
    + intros Hnone t Ht Hid. apply Hnone. eauto.
  - unfold get_source_tools. now rewrite collect_fold.
  - unfold get_destination_tools. now rewrite collect_fold.
Qed.

(* ================================================================= *)
(** ** [parse] and the state of the parser: the claims *)

(** What [_extract_tools] does is the same on every parser state: it ends
    the same way and appends the same tools. *)
Lemma extract_tools_from_appends nodes :
  exists ending new_tools,
    forall self,
      extract_tools_from nodes self =
      (ending, mkParser (tools self ++ new_tools) (connections self) (metadata self)).
Proof.
  induction nodes as [|node nodes (ending & new_tools & IH)]; simpl.
  - exists Normal, []. intros [ts cs md]. simpl. now rewrite app_nil_r.
  - destruct (_parse_tool_node node) as [e | [tool_info|]].
    + exists (Raise e), []. intros [ts cs md]. simpl. now rewrite app_nil_r.
    + exists ending, (tool_info :: new_tools). intros self. rewrite IH. simpl.
      now rewrite <- app_assoc.
    + exists ending, new_tools. exact IH.
Qed.

Lemma extract_connections_appends root :
  exists new_connections,
    forall self,
      _extract_connections root self =
      mkParser (tools self) (connections self ++ new_connections) (metadata self).
Proof.
  unfold _extract_connections. generalize (ET.findall "Connection" root). intros l.
  induction l as [|c l (new_connections & IH)] using rev_ind.
  - exists []. intros [ts cs md]. simpl. now rewrite app_nil_r.
  - destruct (ET.find "Origin" c) as [origin|] eqn:Ho;
      [destruct (ET.find "Destination" c) as [dest|] eqn:Hd|].
    + exists (new_connections ++
              [mkConnection (ET.get_default c "name" "Output")
                            (endpoint_text origin) (endpoint_text dest)])%list.
      intros self. rewrite fold_left_app, IH. simpl. rewrite Ho, Hd.
      unfold append_connection. simpl. now rewrite <- app_assoc.
    + exists new_connections. intros self. rewrite fold_left_app, IH. simpl.
      now rewrite Ho, Hd.
    + exists new_connections. intros self. rewrite fold_left_app, IH. simpl.
      now rewrite Ho.
Qed.









(* ================================================================= *)
(** ** The generated script: the claims *)



(** C6 on a workflow with one input tool that reads [sales.xlsx]: the
    fragment reads the file with [pd.read_excel] and adds [openpyxl] to the
    imports of the generator, but the header of the same run, written
    before the fragments, imports [numpy] and [pandas] only. *)
Lemma excel_import_missing_from_header :
  exists code_lines self',
    generate_lines Samples.noon (new_generator Samples.excel_parser)
      = Some (Done (code_lines, self')) /\
    In "    df_1 = pd.read_excel('sales.xlsx')" code_lines /\
    In "openpyxl" (imports self') /\
    filter (String.prefix "import ") code_lines
      = ["import numpy as np"; "import pandas as pd"].
Proof.
  eexists. eexists. split; [vm_compute; reflexivity|].
  split; [simpl; tauto|]. split; [simpl; tauto | reflexivity].
Qed.

(* ================================================================= *)
(** ** More on the execution order *)

Lemma mem_keys_str {V} k (d : dict V) : PyDict.mem k d = mem_str k (PyDict.keys d).
Proof.
  destruct (mem_str k (PyDict.keys d)) eqn:Hm.
  - apply mem_str_In in Hm. now apply mem_keys.
  - apply mem_str_false in Hm. rewrite <- mem_keys in Hm.
    now destruct (PyDict.mem k d).
Qed.

Lemma mem_set_present {V} k k' (v : V) d :
  PyDict.mem k d = true -> PyDict.mem k' (PyDict.set k v d) = PyDict.mem k' d.
Proof.
  intros Hk. unfold PyDict.mem in *. rewrite get_set.
  destruct (k' =? k) eqn:Heq; [|reflexivity].
  apply String.eqb_eq in Heq. subst k'. now destruct (PyDict.get k d).
Qed.

(** Connections with an unknown end leave the tables as they are. *)
Lemma add_connections_filter nodes conns :
  forall graph in_degree,
    (forall k, PyDict.mem k graph = mem_str k nodes) ->
    add_connections conns (graph, in_degree) =
    add_connections (filter (joins nodes) conns) (graph, in_degree).
Proof.
  unfold add_connections.
  induction conns as [|c conns IH]; intros graph in_degree Hmem; [reflexivity|].
  simpl. rewrite !Hmem. fold (joins nodes c).
  destruct (joins nodes c) eqn:Hj.
  - simpl. rewrite !Hmem. fold (joins nodes c). rewrite Hj.
    apply IH. intros k. rewrite mem_set_present; [apply Hmem|].
    rewrite Hmem. unfold joins in Hj. now apply andb_true_iff in Hj.
  - now apply IH.
Qed.

Lemma node_tables_mem l k :
  PyDict.mem k (fst (node_tables l)) = mem_str k (map tool_id l).
Proof.
  destruct (node_tables_spec l) as (Hg & _). unfold PyDict.mem. rewrite Hg.
  now destruct (mem_str k (map tool_id l)).
Qed.

(** X1.  Connections with an end that is no id of a parsed tool do not
    matter to the execution order: dropping them from the workflow gives
    the same result. *)
Theorem dangling_connections_ignored (self : Parser) :
  get_execution_order self = get_execution_order (without_dangling self).
Proof.
  unfold get_execution_order, without_dangling. simpl.
  pose proof (node_tables_mem (tools self)) as Hmem.
  destruct (node_tables (tools self)) as [g0 d0]. simpl in Hmem.
  now rewrite (add_connections_filter (ids self) (connections self) g0 d0 Hmem).
Qed.

Lemma before_In_l a b l : before a b l -> In a l.
Proof. intros (i & j & Hi & _). apply index_of_In. eauto. Qed.

Lemma valid_edges_In self conn :
  In conn (connections self) ->
  In (source conn) (ids self) -> In (destination conn) (ids self) ->
  In conn (valid_edges self).
Proof.
  intros Hc Hs Hd. unfold valid_edges. apply filter_In. split; [assumption|].
  unfold joins. apply andb_true_iff. now rewrite !mem_str_In.
Qed.

(** X2.  The execution order lists no id twice, lists only ids of parsed
    tools, and is closed under sources: when the destination of a
    connection is scheduled and its source is the id of a tool, the source
    is scheduled too, at an earlier position. *)
Theorem execution_order_sound (self : Parser) :
  exists order,
    get_execution_order self = Some (inr order) /\
    NoDup order /\
    (forall k, In k order -> In k (ids self)) /\
    (forall conn, In conn (connections self) ->
                  In (source conn) (ids self) ->
                  In (destination conn) order ->
                  In (source conn) order /\
                  before (source conn) (destination conn) order).
Proof.
  destruct (get_execution_order_spec self) as (order & in_degree & Hrun & Hinv).
  exists order. split; [assumption|].
  destruct (order_facts self order in_degree Hinv) as (Hnd & Hready & Hord).
  split; [assumption|]. split.
  - intros k Hk. now apply Hready.
  - intros conn Hc Hs Hd.
    assert (Hb : before (source conn) (destination conn) order).
    { apply Hord; [|assumption]. apply valid_edges_In; try assumption.
      now apply Hready. }
    split; [now apply before_In_l in Hb | assumption].
Qed.

Section Blocked.

Variable self : Parser.
Variable order : list string.
Variable in_degree : dict Z.
Hypothesis final : kahn_inv (ids self) (valid_edges self) in_degree [] order.

(** Whatever reaches a scheduled node is scheduled before it. *)
Lemma ancestors_scheduled a b :
  clos_trans string (edge self) a b -> In b order -> before a b order.
Proof.
  intros Hpath. induction Hpath as [a b (c & Hc & <- & <-) | a b c _ IH1 _ IH2];
    intros Hin.
  - now apply (order_ordered self order in_degree final).
  - specialize (IH2 Hin). apply before_In_l in IH2 as Hb.
    eapply before_trans; [apply IH1|]; assumption.
Qed.

Lemma scheduled_not_blocked k : In k order -> ~ blocked self k.
Proof.
  intros Hk (c & Hcycle & Hreach).
  assert (Hc : In c order).
  { destruct Hreach as [-> | Hpath]; [assumption|].
    eapply before_In_l, ancestors_scheduled; eassumption. }
  apply (before_irrefl c order). now apply ancestors_scheduled.
Qed.

(** A node left out is blocked, or has as many distinct ancestors as one
    likes. *)
Lemma unscheduled_blocked_or_ancestors n :
  forall k, In k (ids self) -> ~ In k order ->
  blocked self k \/
  exists l, List.length l = n /\ NoDup l /\
            forall x, In x l -> In x (ids self) /\ clos_trans string (edge self) x k.
Proof.
  induction n as [|n IH]; intros k Hk Hout.
  - right. exists []. split; [reflexivity|]. split; [constructor | intros x []].
  - destruct (unscheduled_predecessor self order in_degree final k Hk Hout)
      as (s & Hs & Hsout & Hedge).
    destruct (IH s Hs Hsout) as [(c & Hcycle & Hreach) | (l & Hlen & Hnd & Hl)].
    + left. exists c. split; [assumption|]. right.
      destruct Hreach as [-> | Hpath]; [now apply t_step|].
      eapply t_trans; [eassumption | now apply t_step].
    + destruct (in_dec string_dec s l) as [Hin | Hnotin].
      * left. exists s. split; [now apply Hl|]. right. now apply t_step.
      * right. exists (s :: l). split; [simpl; now rewrite Hlen|]. split.
        -- now constructor.
        -- intros x [<- | Hx].
           ++ split; [assumption | now apply t_step].
           ++ destruct (Hl x Hx) as [Hxi Hxs]. split; [assumption|].
              eapply t_trans; [eassumption | now apply t_step].
Qed.

Lemma unscheduled_blocked k : In k (ids self) -> ~ In k order -> blocked self k.
Proof.
  intros Hk Hout.
  destruct (unscheduled_blocked_or_ancestors
              (S (List.length (distinct_ids self))) k Hk Hout)
    as [Hb | (l & Hlen & Hnd & Hl)]; [assumption|].
  exfalso.
  assert (Hle : List.length l <= List.length (distinct_ids self)).
  { apply NoDup_incl_length; [assumption|].
    intros x Hx. apply nodup_In. now apply Hl. }
  lia.
Qed.

End Blocked.

(** X3.  A tool id is scheduled exactly when no node on a cycle of the
    graph reaches it: the nodes that a cycle leaves out of the order are
    the nodes of the cycles and everything downstream of them. *)
Theorem scheduled_iff_not_blocked (self : Parser) :
  exists order,
    get_execution_order self = Some (inr order) /\
    forall k, In k order <-> In k (ids self) /\ ~ blocked self k.
Proof.
  destruct (get_execution_order_spec self) as (order & in_degree & Hrun & Hinv).
  exists order. split; [assumption|]. intros k. split.
  - intros Hk. split.
    + now apply (order_ready self order in_degree Hinv).
    + now apply (scheduled_not_blocked self order in_degree Hinv).
  - intros [Hk Hfree].
    destruct (in_dec string_dec k order) as [Hin | Hout]; [assumption|].
    exfalso. apply Hfree. now apply (unscheduled_blocked self order in_degree Hinv).
Qed.

(** X4.  Every id of the execution order resolves through
    [get_tool_by_id], to the first tool of the list that carries the id:
    a caller that walks the order never meets [None]. *)
Theorem scheduled_ids_resolve (self : Parser) :
  exists order,
    get_execution_order self = Some (inr order) /\
    forall k, In k order ->
      exists tool earlier later,
        get_tool_by_id self k = Some tool /\
        tool_id tool = k /\
        tools self = (earlier ++ tool :: later)%list /\
        forall other, In other earlier -> tool_id other <> k.
Proof.
  destruct (get_execution_order_spec self) as (order & in_degree & Hrun & Hinv).
  exists order. split; [assumption|]. intros k Hk.
  apply (order_ready self order in_degree Hinv) in Hk. destruct Hk as [Hk _].
  unfold get_tool_by_id.
  destruct (find_tool (tools self) k) as [tool|] eqn:Hfind.
  - apply find_tool_some in Hfind. destruct Hfind as (earlier & later & Heq & Hid & Hnone).
    exists tool, earlier, later. auto.
  - exfalso. unfold ids in Hk. apply in_map_iff in Hk. destruct Hk as (t & Hid & Ht).
    rewrite find_tool_none in Hfind. now apply (Hfind t).
Qed.

(* ================================================================= *)
(** ** Where the execution order starts *)

Lemma first_occurrences_snoc l x :
  first_occurrences (l ++ [x]) =
  if mem_str x (first_occurrences l) then first_occurrences l
  else (first_occurrences l ++ [x])%list.
Proof. unfold first_occurrences. now rewrite fold_left_app. Qed.

Lemma first_occurrences_facts l :
  NoDup (first_occurrences l) /\
  (forall k, In k (first_occurrences l) <-> In k l) /\
  List.length (first_occurrences l) <= List.length l.
Proof.
  induction l as [|x l (Hnd & Hin & Hlen)] using rev_ind.
  - split; [constructor|]. split; [tauto | auto].
  - rewrite first_occurrences_snoc, length_app. simpl.
    destruct (mem_str x (first_occurrences l)) eqn:Hx.
    + apply mem_str_In in Hx. split; [assumption|]. split; [|lia].
      intros k. rewrite in_app_iff, Hin. simpl. split; [auto|].
      intros [H | [<- | []]]; [assumption | now apply Hin].
    + apply mem_str_false in Hx. split; [|split].
      * apply NoDup_app; [assumption | repeat constructor; intros [] |].
        intros k Hk [<- | []]. contradiction.
      * intros k. rewrite !in_app_iff, Hin. tauto.
      * rewrite length_app. simpl. lia.
Qed.

Lemma set_constant_map {V} (v : V) k (F : list string) :
  PyDict.set k v (map (fun k => (k, v)) F) =
  map (fun k => (k, v)) (if mem_str k F then F else (F ++ [k])%list).
Proof.
  induction F as [|x F IH]; simpl; [reflexivity|].
  destruct (k =? x) eqn:Hk; simpl; [reflexivity|].
  rewrite IH. now destruct (mem_str k F).
Qed.

(** The first loop gives both tables the distinct ids as keys, in the order
    of first occurrence. *)
Lemma node_tables_shape l :
  node_tables l =
  (map (fun k => (k, [])) (first_occurrences (map tool_id l)),
   map (fun k => (k, 0%Z)) (first_occurrences (map tool_id l))).
Proof.
  induction l as [|t l IH] using rev_ind; [reflexivity|].
  rewrite node_tables_app, IH, map_app. simpl.
  rewrite first_occurrences_snoc, !set_constant_map.
  now destruct (mem_str (tool_id t) (first_occurrences (map tool_id l))).
Qed.

Lemma keys_set_present {V} k (v : V) d :
  PyDict.mem k d = true -> PyDict.keys (PyDict.set k v d) = PyDict.keys d.
Proof. intros Hk. now rewrite keys_set, Hk. Qed.

(** The second loop keeps the keys of both tables. *)
Lemma add_connections_keys conns :
  forall graph in_degree,
    PyDict.keys graph = PyDict.keys in_degree ->
    PyDict.keys (fst (add_connections conns (graph, in_degree))) = PyDict.keys graph /\
    PyDict.keys (snd (add_connections conns (graph, in_degree))) = PyDict.keys in_degree.
Proof.
  unfold add_connections.
  induction conns as [|c conns IH]; intros graph in_degree Hkeys; [auto|].
  simpl.
  destruct (PyDict.mem (source c) graph && PyDict.mem (destination c) graph) eqn:Hj.
  - apply andb_true_iff in Hj. destruct Hj as [Hs Hd].
    assert (Hd' : PyDict.mem (destination c) in_degree = true).
    { rewrite mem_keys_str in Hd. rewrite mem_keys_str, <- Hkeys. exact Hd. }
    destruct (IH (PyDict.set (source c)
                    (PyDict.get_default (source c) [] graph ++ [destination c])%list graph)
                 (PyDict.set (destination c)
                    (PyDict.get_default (destination c) 0 in_degree + 1)%Z in_degree))
      as [Hg Hi].
    { now rewrite !keys_set_present. }
    rewrite Hg, Hi, !keys_set_present by assumption. auto.
  - now apply IH.
Qed.

Lemma initial_queue_filter (d : dict Z) :
  NoDup (PyDict.keys d) ->
  initial_queue d =
  filter (fun k => match PyDict.get k d with
                   | Some z => (z =? 0)%Z
                   | None => false
                   end) (PyDict.keys d).
Proof.
  unfold initial_queue, PyDict.items, PyDict.keys.
  induction d as [|[k z] d IH]; simpl; intros Hnd; [reflexivity|].
  inversion Hnd as [|? ? Hnotin Hnd']; subst.
  rewrite String.eqb_refl.
  assert (Htail : filter (fun k0 => match (if k0 =? k then Some z else PyDict.get k0 d) with
                                    | Some z0 => (z0 =? 0)%Z
                                    | None => false
                                    end) (map fst d)
                  = filter (fun k0 => match PyDict.get k0 d with
                                      | Some z0 => (z0 =? 0)%Z
                                      | None => false
                                      end) (map fst d)).
  { apply filter_ext_in. intros k0 Hk0.
    destruct (k0 =? k) eqn:Heq; [|reflexivity].
    apply String.eqb_eq in Heq. subst k0. contradiction. }
  rewrite Htail, <- IH by assumption.
  now destruct (z =? 0)%Z.
Qed.

Lemma visit_neighbors_extends neighbors :
  forall in_degree queue in_degree' queue',
    visit_neighbors neighbors in_degree queue = inr (in_degree', queue') ->
    exists added, queue' = (queue ++ added)%list.
Proof.
  induction neighbors as [|x rest IH]; simpl; intros d q d' q' Hrun.
  - injection Hrun as _ <-. exists []. now rewrite app_nil_r.
  - destruct (PyDict.get x d) as [z|]; [|discriminate].
    destruct (z - 1 =? 0)%Z.
    + destruct (IH _ _ _ _ Hrun) as (added & ->).
      exists (x :: added). now rewrite <- app_assoc.
    + now apply (IH _ _ _ _ Hrun).
Qed.

(** The queue is first in, first out: what is in the queue is scheduled
    next, in its order. *)
Lemma kahn_loop_prefix fuel :
  forall graph in_degree queue result order,
    kahn_loop fuel graph in_degree queue result = Some (inr order) ->
    exists rest, order = (result ++ queue ++ rest)%list.
Proof.
  induction fuel as [|fuel IH]; intros g d q r order Hrun.
  - destruct q; [|discriminate]. injection Hrun as <-. exists [].
    now rewrite !app_nil_r.
  - destruct q as [|node q]; simpl in Hrun.
    + injection Hrun as <-. exists []. now rewrite !app_nil_r.
    + destruct (visit_neighbors (PyDict.get_default node [] g) d q)
        as [e | [d' q']] eqn:Hvisit; [discriminate|].
      destruct (visit_neighbors_extends _ _ _ _ _ Hvisit) as (added & ->).
      destruct (IH _ _ _ _ _ Hrun) as (rest & ->).
      exists (added ++ rest)%list. rewrite <- !app_assoc. reflexivity.
Qed.

Lemma initial_queue_roots self :
  initial_queue (snd (add_connections (connections self) (node_tables (tools self))))
  = roots self.
Proof.
  pose proof (node_tables_shape (tools self)) as Hshape.
  destruct (node_tables_spec (tools self)) as (Hg0 & Hd0 & Hnd0).
  destruct (node_tables (tools self)) as [g0 d0] eqn:Htab.
  simpl in Hg0, Hd0, Hnd0. injection Hshape as Hg0s Hd0s.
  destruct (add_connections_spec (ids self) g0 d0 Hg0 Hd0 Hnd0 (connections self))
    as (_ & Hd & Hnd).
  fold (valid_edges self) in Hd.
  destruct (add_connections_keys (connections self) g0 d0) as [_ Hkeys].
  { rewrite Hg0s, Hd0s. unfold PyDict.keys. rewrite !map_map. reflexivity. }
  rewrite initial_queue_filter by assumption.
  rewrite Hkeys. unfold roots.
  assert (Hk0 : PyDict.keys d0 = first_occurrences (ids self)).
  { rewrite Hd0s. unfold PyDict.keys. rewrite map_map. simpl. apply map_id. }
  rewrite Hk0. apply filter_ext_in. intros k Hk.
  destruct (first_occurrences_facts (ids self)) as (_ & Hin & _).
  apply Hin, mem_str_In in Hk.
  rewrite Hd, Hk.
  destruct (pending (valid_edges self) [] k); reflexivity.
Qed.

(** X5.  The execution order begins with the distinct tool ids that no
    valid connection enters, in document order (first occurrence); what
    follows are the ids released later.  In a workflow without valid
    connections the order is the list of distinct ids in document order. *)
Theorem execution_order_starts_with_roots (self : Parser) :
  exists order rest,
    get_execution_order self = Some (inr order) /\
    order = (roots self ++ rest)%list /\
    (valid_edges self = [] -> order = first_occurrences (ids self)).
Proof.
  destruct (get_execution_order_spec self) as (order & in_degree & Hrun & Hinv).
  pose proof Hrun as Hrun'. unfold get_execution_order in Hrun'.
  pose proof (initial_queue_roots self) as Hroots.
  destruct (add_connections (connections self) (node_tables (tools self))) as [g d].
  simpl in Hroots. rewrite Hroots in Hrun'.
  destruct (kahn_loop_prefix _ _ _ _ _ _ Hrun') as (rest & Horder). simpl in Horder.
  exists order, rest. split; [assumption|]. split; [assumption|].
  intros Hnone.
  assert (Hall : roots self = first_occurrences (ids self)).
  { unfold roots. rewrite Hnone. unfold pending. simpl.
    induction (first_occurrences (ids self)) as [|x F IH]; simpl; congruence. }
  destruct (order_facts self order in_degree Hinv) as (Hnd & Hready & _).
  destruct rest as [|x rest]; [now rewrite Horder, Hall, app_nil_r|].
  exfalso. rewrite Horder, Hall in Hnd, Hready.
  apply NoDup_remove_2 in Hnd. apply Hnd. apply in_or_app. left.
  destruct (first_occurrences_facts (ids self)) as (_ & Hin & _).
  apply Hin. apply (Hready x).
  apply in_or_app. right. now left.
Qed.

(* ================================================================= *)
(** ** More on [parse] *)

Lemma parse_tool_node_skip node :
  has_tool_id node = false -> _parse_tool_node node = inr None.
Proof.
  unfold has_tool_id, _parse_tool_node.
  destruct (ET.get node "ToolID") as [id|]; [|reflexivity].
  destruct (id =? ""); [reflexivity | discriminate].
Qed.

Lemma parse_tool_node_identified node :
  has_tool_id node = true ->
  match _parse_tool_node node with
  | inl _ => position_accepted node = false
  | inr None => False
  | inr (Some tool) =>
      position_accepted node = true /\
      tool_id tool = ET.get_default node "ToolID" "" /\
      tool_type tool = _identify_tool_type (plugin tool) (macro tool) (config tool)
  end.
Proof.
  unfold has_tool_id, _parse_tool_node, position_accepted, ET.get_default,
    PyDict.get_default, ET.get.
  destruct (PyDict.get "ToolID" (ET.attrib node)) as [id|]; [|discriminate].
  destruct (id =? ""); [discriminate|]. intros _.
  destruct (_extract_gui_settings node); simpl; auto.
Qed.

Lemma extract_tools_from_collects nodes :
  forall self,
    match extract_tools_from nodes self with
    | (Normal, self') =>
        forallb position_accepted (filter has_tool_id nodes) = true /\
        map tool_id (tools self') =
          (map tool_id (tools self)
           ++ map (fun n => ET.get_default n "ToolID" "") (filter has_tool_id nodes))%list
    | (Raise _, _) =>
        forallb position_accepted (filter has_tool_id nodes) = false
    end.
Proof.
  induction nodes as [|node nodes IH]; intros self; simpl.
  - split; [reflexivity | now rewrite app_nil_r].
  - destruct (has_tool_id node) eqn:Hid.
    + pose proof (parse_tool_node_identified node Hid) as Hnode.
      destruct (_parse_tool_node node) as [e | [tool|]]; simpl.
      * now rewrite Hnode.
      * destruct Hnode as (Hpos & Htid & _). rewrite Hpos. simpl.
        specialize (IH (append_tool tool self)).
        destruct (extract_tools_from nodes (append_tool tool self)) as [[|e] self'].
        -- destruct IH as [Hall Hids]. split; [assumption|].
           rewrite Hids. simpl. rewrite map_app. simpl.
           now rewrite <- app_assoc, Htid.
        -- assumption.
      * contradiction.
    + rewrite (parse_tool_node_skip node Hid). apply IH.
Qed.

Lemma extract_connections_count root self :
  List.length (connections (_extract_connections root self)) =
  List.length (connections self)
  + List.length (filter complete_connection (ET.findall "Connection" root)).
Proof.
  unfold _extract_connections. generalize (ET.findall "Connection" root). intros l.
  revert self. induction l as [|c l IH]; intros self; simpl; [lia|].
  unfold complete_connection at 1.
  destruct (ET.find "Origin" c); [destruct (ET.find "Destination" c)|];
    rewrite IH; simpl; rewrite ?length_app; simpl; lia.
Qed.

Lemma extract_connections_tools root self :
  tools (_extract_connections root self) = tools self.
Proof.
  destruct (extract_connections_appends root) as (new & Hnew). now rewrite Hnew.
Qed.


(** X7.  A successful [parse] appends one tool per [Node] element with a
    non-empty [ToolID], in document order and under that id, and one
    connection per [Connection] element with both an origin and a
    destination; elements without them are dropped. *)
Theorem parse_collects (root : ET.Element) (self self' : Parser) :
  parse (WellFormed root) self = (true, self') ->
  map tool_id (tools self') =
    (map tool_id (tools self)
     ++ map (fun node => ET.get_default node "ToolID" "") (identified_nodes root))%list /\
  List.length (connections self') =
    List.length (connections self)
    + List.length (filter complete_connection (ET.findall "Connection" root)).
Proof.
  unfold parse, _extract_tools, identified_nodes.
  pose proof (extract_tools_from_collects (ET.findall "Node" root)
                (_extract_metadata root self)) as H.
  destruct (extract_tools_from_appends (ET.findall "Node" root))
    as (ending & new_tools & Htools).
  rewrite Htools in *. destruct ending as [|e]; [|discriminate].
  intros [= <-]. destruct H as [_ Hids].
  rewrite extract_connections_tools, extract_connections_count. simpl in *.
  split; [exact Hids | reflexivity].
Qed.

Lemma parse_collects_witness :
  map tool_id (tools (snd (parse (WellFormed annotated_document) Samples.chain_parser))) =
    (map tool_id (tools Samples.chain_parser)
     ++ map (fun node => ET.get_default node "ToolID" "")
            (identified_nodes annotated_document))%list /\
  List.length (connections (snd (parse (WellFormed annotated_document) Samples.chain_parser))) =
    List.length (connections Samples.chain_parser)
    + List.length (filter complete_connection
                          (ET.findall "Connection" annotated_document)).
Proof.
  apply (parse_collects annotated_document Samples.chain_parser
           (snd (parse (WellFormed annotated_document) Samples.chain_parser))).
  vm_compute. reflexivity.
Defined.

(* ================================================================= *)
(** ** The metadata *)

Lemma metadata_tag_lower t :
  mem_str t ["Author"; "Description"; "CreationDate"] = true ->
  (t = "Author" /\ PyStr.lower t = "author") \/
  (t = "Description" /\ PyStr.lower t = "description") \/
  (t = "CreationDate" /\ PyStr.lower t = "creationdate").
Proof.
  unfold mem_str. simpl. rewrite !orb_true_iff, !String.eqb_eq.
  intros [-> | [-> | [-> | H]]]; [auto | auto | auto | discriminate].
Qed.

Section MetadataLoop.

Let step (md : dict (option string)) (child : ET.Element) : dict (option string) :=
  if mem_str (ET.tag child) ["Author"; "Description"; "CreationDate"]
  then PyDict.set (PyStr.lower (ET.tag child)) (ET.text child) md
  else md.

Lemma metadata_loop_keeps children :
  forall md k,
    k <> "author" -> k <> "description" -> k <> "creationdate" ->
    PyDict.get k (fold_left step children md) = PyDict.get k md.
Proof.
  induction children as [|c children IH]; intros md k Ha Hd Hc; [reflexivity|].
  simpl. rewrite IH by assumption. unfold step.
  destruct (mem_str (ET.tag c) _) eqn:Htag; [|reflexivity].
  apply metadata_tag_lower in Htag.
  destruct Htag as [[_ ->] | [[_ ->] | [_ ->]]]; now rewrite get_set_other by congruence.
Qed.

Lemma metadata_loop_keys children :
  forall md,
    (forall k, In k (PyDict.keys md) -> In k metadata_keys) ->
    forall k, In k (PyDict.keys (fold_left step children md)) -> In k metadata_keys.
Proof.
  induction children as [|c children IH]; intros md Hmd; [exact Hmd|].
  simpl. apply IH. intros k. unfold step.
  destruct (mem_str (ET.tag c) _) eqn:Htag; [|apply Hmd].
  rewrite <- get_in_keys, get_set.
  destruct (k =? PyStr.lower (ET.tag c)) eqn:Hk.
  - intros _. apply String.eqb_eq in Hk. subst k.
    apply metadata_tag_lower in Htag.
    destruct Htag as [[_ ->] | [[_ ->] | [_ ->]]]; simpl; tauto.
  - rewrite get_in_keys. apply Hmd.
Qed.

Lemma metadata_loop_date_kept later :
  forall md,
    (forall c, In c later -> ET.tag c <> "CreationDate") ->
    PyDict.get "creationdate" (fold_left step later md) = PyDict.get "creationdate" md.
Proof.
  induction later as [|c later IH]; intros md Hlater; [reflexivity|].
  simpl. rewrite IH by (intros c' Hc'; apply Hlater; now right). unfold step.
  destruct (mem_str (ET.tag c) _) eqn:Htag; [|reflexivity].
  apply metadata_tag_lower in Htag.
  destruct Htag as [[_ ->] | [[_ ->] | [Ht _]]].
  - now rewrite get_set_other by discriminate.
  - now rewrite get_set_other by discriminate.
  - exfalso. apply (Hlater c); [now left | assumption].
Qed.

Lemma metadata_loop_date earlier child later md :
  ET.tag child = "CreationDate" ->
  (forall c, In c later -> ET.tag c <> "CreationDate") ->
  PyDict.get "creationdate" (fold_left step (earlier ++ child :: later) md)
  = Some (ET.text child).
Proof.
  intros Htag Hlater. rewrite fold_left_app. simpl.
  rewrite metadata_loop_date_kept by assumption.
  unfold step at 1. rewrite Htag. simpl. apply get_set_same.
Qed.

(** X8.  [_extract_metadata] replaces the metadata and touches nothing
    else.  The new mapping has [version] from the root's attribute of that
    name (default [Unknown]) and keys among [version], [creation_date],
    [author], [description] and [creationdate]; [creation_date] is always
    [None], because the text of a [CreationDate] element, read from the
    [MetaInfo] of the first [Properties] element of the document, is stored
    under the key [creationdate]. *)
Theorem extract_metadata_facts (root : ET.Element) (self : Parser) :
  let self' := _extract_metadata root self in
  tools self' = tools self /\
  connections self' = connections self /\
  PyDict.get "version" (metadata self')
    = Some (Some (ET.get_default root "version" "Unknown")) /\
  PyDict.get "creation_date" (metadata self') = Some None /\
  (forall k, In k (PyDict.keys (metadata self')) -> In k metadata_keys) /\
  (forall properties meta earlier date later,
     ET.find "Properties" root = Some properties ->
     ET.find "MetaInfo" properties = Some meta ->
     ET.children meta = (earlier ++ date :: later)%list ->
     ET.tag date = "CreationDate" ->
     (forall c, In c later -> ET.tag c <> "CreationDate") ->
     PyDict.get "creationdate" (metadata self') = Some (ET.text date)).
Proof.
  unfold _extract_metadata. cbv zeta. simpl.
  split; [reflexivity|]. split; [reflexivity|].
  fold step.
  destruct (ET.find "Properties" root) as [properties|];
    [destruct (ET.find "MetaInfo" properties) as [meta|] eqn:Hmeta|].
  - split; [now rewrite metadata_loop_keeps by discriminate|].
    split; [now rewrite metadata_loop_keeps by discriminate|].
    split.
    + apply metadata_loop_keys. unfold metadata_keys. simpl. tauto.
    + intros p m earlier date later [= <-] Hm Hsplit Htag Hlater.
      rewrite Hmeta in Hm. injection Hm as <-.
      rewrite Hsplit. now apply metadata_loop_date.
  - split; [reflexivity|]. split; [reflexivity|]. split.
    + unfold metadata_keys. simpl. tauto.
    + intros p m earlier date later [= <-] Hm. rewrite Hmeta in Hm. discriminate.
  - split; [reflexivity|]. split; [reflexivity|]. split.
    + unfold metadata_keys. simpl. tauto.
    + discriminate.
Qed.

End MetadataLoop.

Lemma extract_metadata_facts_witness :
  PyDict.get "creation_date" (metadata (_extract_metadata annotated_document init))
    = Some None /\
  PyDict.get "creationdate" (metadata (_extract_metadata annotated_document init))
    = Some (Some "2020-01-01").
Proof.
  destruct (extract_metadata_facts annotated_document init)
    as (_ & _ & _ & Hnone & _ & Hdate).
  split; [exact Hnone|].
  apply (Hdate (Samples.element "Properties" []
                  [ Samples.element "MetaInfo" []
                      [ Samples.leaf "Author" "Ada";
                        Samples.leaf "CreationDate" "2020-01-01";
                        Samples.leaf "Name" "Sales" ] ])
               (Samples.element "MetaInfo" []
                  [ Samples.leaf "Author" "Ada";
                    Samples.leaf "CreationDate" "2020-01-01";
                    Samples.leaf "Name" "Sales" ])
               [Samples.leaf "Author" "Ada"]
               (Samples.leaf "CreationDate" "2020-01-01")
               [Samples.leaf "Name" "Sales"]);
    try reflexivity.
  simpl. intros c [<- | []]. discriminate.
Defined.

(* ================================================================= *)
(** ** More on the classifier, the accessors and the configuration *)

Lemma identify_tool_type_range plugin macro config :
  In (_identify_tool_type plugin macro config) classifier_tags \/
  (macro <> "" /\ _identify_tool_type plugin macro config = "macro:" ++ macro).
Proof.
  unfold _identify_tool_type, classifier_tags.
  assert (Hafter : In (if macro =? "" then "unknown" else "macro:" ++ macro)
                      classifier_tags \/
                   (macro <> "" /\
                    (if macro =? "" then "unknown" else "macro:" ++ macro)
                    = "macro:" ++ macro)).
  { destruct (macro =? "") eqn:Hm.
    - left. unfold classifier_tags. simpl. tauto.
    - right. apply String.eqb_neq in Hm. auto. }
  repeat match goal with
         | |- context [if ?b then _ else _] =>
             lazymatch b with
             | (macro =? "") => fail
             | _ => destruct b
             end
         end;
    try exact Hafter; left; simpl; tauto.
Qed.

(** X9.  The tag of a tool built by [_parse_tool_node] is one of the
    fourteen tags of the classifier or [macro:] followed by the non-empty
    macro name.  It is never [union], [text_to_columns], [cross_tab] or
    [transpose]: the generator's branches for these four types are not
    reached by a parsed tool. *)
Theorem parsed_tool_types (node : ET.Element) (tool : Tool) :
  _parse_tool_node node = inr (Some tool) ->
  (In (tool_type tool) classifier_tags \/
   (macro tool <> "" /\ tool_type tool = "macro:" ++ macro tool)) /\
  ~ In (tool_type tool) ["union"; "text_to_columns"; "cross_tab"; "transpose"].
Proof.
  intros Hnode.
  assert (Htype : tool_type tool =
                  _identify_tool_type (plugin tool) (macro tool) (config tool)).
  { destruct (has_tool_id node) eqn:Hid.
    - pose proof (parse_tool_node_identified node Hid) as H.
      rewrite Hnode in H. tauto.
    - rewrite (parse_tool_node_skip node Hid) in Hnode. discriminate. }
  pose proof (identify_tool_type_range (plugin tool) (macro tool) (config tool)) as Hr.
  rewrite <- Htype in Hr. split; [assumption|].
  destruct Hr as [Hin | [_ Hmacro]].
  - unfold classifier_tags in Hin. simpl in Hin. simpl.
    intuition (subst; congruence).
  - rewrite Hmacro. simpl. intuition discriminate.
Qed.

Lemma parsed_tool_types_witness :
  (In "macro:Cleanse.yxmc" classifier_tags \/
   ("Cleanse.yxmc" <> "" /\ "macro:Cleanse.yxmc" = "macro:" ++ "Cleanse.yxmc")) /\
  ~ In "macro:Cleanse.yxmc" ["union"; "text_to_columns"; "cross_tab"; "transpose"].
Proof.
  apply (parsed_tool_types
           (ET.Elem "Node" [("ToolID", "2")] None
              [ ET.Elem "EngineSettings" [("Macro", "Cleanse.yxmc")] None [] ])
           (mkTool "2" "macro:Cleanse.yxmc" "" "Cleanse.yxmc" [] None None)).
  reflexivity.
Defined.

(** X10.  The two connection accessors are two views of the same list: [s]
    is among the sources of [d] exactly when [d] is among the destinations
    of [s], which is when some connection goes from [s] to [d]. *)
Theorem sources_and_destinations_agree (self : Parser) (s d : string) :
  (In s (get_source_tools self d) <-> In d (get_destination_tools self s)) /\
  (In s (get_source_tools self d) <->
   exists conn, In conn (connections self) /\ source conn = s /\ destination conn = d).
Proof.
  assert (Hsrc : In s (get_source_tools self d) <->
                 exists conn, In conn (connections self) /\
                              source conn = s /\ destination conn = d).
  { unfold get_source_tools. rewrite collect_fold. simpl. rewrite in_map_iff. split.
    - intros (c & Hs & Hc). apply filter_In in Hc. destruct Hc as [Hc Hd].
      apply String.eqb_eq in Hd. eauto.
    - intros (c & Hc & Hs & Hd). exists c. split; [assumption|].
      apply filter_In. split; [assumption | now apply String.eqb_eq]. }
  assert (Hdst : In d (get_destination_tools self s) <->
                 exists conn, In conn (connections self) /\
                              source conn = s /\ destination conn = d).
  { unfold get_destination_tools. rewrite collect_fold. simpl. rewrite in_map_iff. split.
    - intros (c & Hd & Hc). apply filter_In in Hc. destruct Hc as [Hc Hs].
      apply String.eqb_eq in Hs. eauto.
    - intros (c & Hc & Hs & Hd). exists c. split; [assumption|].
      apply filter_In. split; [assumption | now apply String.eqb_eq]. }
  split; [now rewrite Hsrc, Hdst | exact Hsrc].
Qed.



(* ================================================================= *)
(** ** The variable bindings *)

Lemma get_var_name_cases id self :
  match PyDict.get id (tool_vars self) with
  | Some v => _get_var_name id self = Done (v, self)
  | None =>
      _get_var_name id self =
      Done ("df_" ++ id,
            mkGenerator (parser self) (var_counter self)
                        (PyDict.set id ("df_" ++ id) (tool_vars self)) (imports self))
  end.
Proof.
  unfold _get_var_name, PyDict.mem.
  destruct (PyDict.get id (tool_vars self)) as [v|] eqn:Hget.
  - rewrite Hget. now destruct self.
  - now rewrite get_set_same.
Qed.


(** X12.  [_get_var_name] never raises; the name it returns for an id is
    recorded in the table, and every later call for that id returns the
    same name and leaves the generator as it is.  An id without a binding
    gets [df_<id>]. *)
Theorem var_name_stable (id : string) (self : Generator) :
  exists v self',
    _get_var_name id self = Done (v, self') /\
    PyDict.get id (tool_vars self') = Some v /\
    _get_var_name id self' = Done (v, self') /\
    (PyDict.get id (tool_vars self) = None -> v = "df_" ++ id) /\
    (forall w, PyDict.get id (tool_vars self) = Some w -> v = w /\ self' = self).
Proof.
  pose proof (get_var_name_cases id self) as Hcase.
  destruct (PyDict.get id (tool_vars self)) as [w|] eqn:Hget.
  - exists w, self. split; [assumption|]. split; [assumption|].
    split; [assumption|]. split; [discriminate|].
    intros w' [= <-]. auto.
  - eexists. eexists. split; [exact Hcase|].
    split; [simpl; apply get_set_same|]. split.
    + pose proof (get_var_name_cases id
                    (mkGenerator (parser self) (var_counter self)
                       (PyDict.set id ("df_" ++ id) (tool_vars self)) (imports self)))
        as Hagain.
      simpl in Hagain. rewrite get_set_same in Hagain. exact Hagain.
    + split; [reflexivity | discriminate].
Qed.

Lemma canonical_set id tv : canonical tv -> canonical (PyDict.set id ("df_" ++ id) tv).
Proof.
  intros Hc k v. rewrite get_set. destruct (k =? id) eqn:Hk.
  - apply String.eqb_eq in Hk. subst k. now intros [= <-].
  - apply Hc.
Qed.

Lemma get_var_name_canonical id self :
  canonical (tool_vars self) ->
  exists self',
    _get_var_name id self = Done ("df_" ++ id, self') /\
    parser self' = parser self /\ canonical (tool_vars self').
Proof.
  intros Hc. pose proof (get_var_name_cases id self) as Hcase.
  destruct (PyDict.get id (tool_vars self)) as [v|] eqn:Hget.
  - exists self. rewrite <- (Hc id v Hget). auto.
  - eexists. split; [exact Hcase|]. simpl. split; [reflexivity|].
    now apply canonical_set.
Qed.

Lemma var_names_canonical sources :
  forall self,
    canonical (tool_vars self) ->
    exists self',
      var_names sources self = Done (map (append "df_") sources, self') /\
      parser self' = parser self /\ canonical (tool_vars self').
Proof.
  induction sources as [|s sources IH]; intros self Hc; simpl.
  - exists self. auto.
  - unfold bind.
    destruct (get_var_name_canonical s self Hc) as (self1 & Hrun1 & Hp1 & Hc1).
    rewrite Hrun1.
    destruct (IH self1 Hc1) as (self2 & Hrun2 & Hp2 & Hc2).
    rewrite Hrun2. exists self2. split; [reflexivity|]. split; [congruence | assumption].
Qed.

Lemma source_vars_in_connection_order_aux id self :
  canonical (tool_vars self) ->
  exists self',
    _get_source_var id self =
      Done (match get_source_tools (parser self) id with
            | [] => None
            | first :: _ => Some ("df_" ++ first)
            end, self') /\
    parser self' = parser self /\ canonical (tool_vars self').
Proof.
  intros Hc. unfold _get_source_var.
  destruct (get_source_tools (parser self) id) as [|first rest].
  - exists self. auto.
  - unfold bind, ret.
    destruct (get_var_name_canonical first self Hc) as (self' & Hrun & Hp & Hc').
    rewrite Hrun. exists self'. auto.
Qed.

(** X13.  On a generator whose bindings are all [df_<id>],
    [_get_all_source_vars] returns [df_<source>] for every connection that
    ends at the tool, in the order of the connection list (a source that
    feeds the tool twice is listed twice), and [_get_source_var] returns
    the first of them, or [None] without any; neither raises, and the
    bindings stay of that form. *)
Theorem source_vars_in_connection_order (id : string) (self : Generator) :
  canonical (tool_vars self) ->
  (exists self',
     _get_all_source_vars id self =
       Done (map (append "df_") (get_source_tools (parser self) id), self') /\
     parser self' = parser self /\ canonical (tool_vars self')) /\
  (exists self',
     _get_source_var id self =
       Done (match get_source_tools (parser self) id with
             | [] => None
             | first :: _ => Some ("df_" ++ first)
             end, self') /\
     parser self' = parser self /\ canonical (tool_vars self')).
Proof.
  intros Hc. split.
  - unfold _get_all_source_vars. now apply var_names_canonical.
  - now apply source_vars_in_connection_order_aux.
Qed.

Lemma source_vars_in_connection_order_witness :
  (exists self',
     _get_all_source_vars "2" (new_generator Samples.chain_parser) =
       Done (map (append "df_") (get_source_tools Samples.chain_parser "2"), self') /\
     parser self' = Samples.chain_parser /\ canonical (tool_vars self')) /\
  (exists self',
     _get_source_var "2" (new_generator Samples.chain_parser) =
       Done (match get_source_tools Samples.chain_parser "2" with
             | [] => None
             | first :: _ => Some ("df_" ++ first)
             end, self') /\
     parser self' = Samples.chain_parser /\ canonical (tool_vars self')).
Proof.
  apply (source_vars_in_connection_order "2" (new_generator Samples.chain_parser)).
  intros k v. discriminate.
Defined.

(* ================================================================= *)
(** ** What a run of the generator changes *)



















(* ================================================================= *)
(** ** When [generate] returns a script *)

Lemma succeeds_ret {A} p (Q : A -> Prop) (a : A) : Q a -> succeeds_with p Q (ret a).
Proof. intros Ha self Hs. exists a, self. auto. Qed.

Lemma succeeds_bind {A B} p (Q : A -> Prop) (R : B -> Prop) (m : Gen A) (k : A -> Gen B) :
  succeeds_with p Q m -> (forall a, Q a -> succeeds_with p R (k a)) ->
  succeeds_with p R (bind m k).
Proof.
  intros Hm Hk self Hs. unfold bind.
  destruct (Hm self Hs) as (a & self1 & Hrun & Hs1 & Ha). rewrite Hrun.
  now apply Hk.
Qed.

Lemma succeeds_add_import p imp : succeeds_with p (fun _ => True) (add_import imp).
Proof.
  intros self [Hp Hc]. unfold add_import. eexists. eexists.
  split; [reflexivity|]. split; [split; assumption | exact I].
Qed.

Lemma succeeds_get_var_name p id :
  succeeds_with p (fun v => v = "df_" ++ id) (_get_var_name id).
Proof.
  intros self [Hp Hc].
  destruct (get_var_name_canonical id self Hc) as (self' & Hrun & Hp' & Hc').
  exists ("df_" ++ id), self'. split; [assumption|].
  split; [split; [congruence | assumption] | reflexivity].
Qed.

Lemma contains_backslash_df x : PyStr.contains "\" ("df_" ++ x) = PyStr.contains "\" x.
Proof. reflexivity. Qed.

Lemma get_source_tools_sources self id s :
  In s (get_source_tools self id) ->
  exists conn, In conn (connections self) /\ source conn = s.
Proof.
  unfold get_source_tools. rewrite collect_fold. simpl. rewrite in_map_iff.
  intros (c & Hs & Hc). apply filter_In in Hc. exists c. tauto.
Qed.

Section PlainWorkflow.

Variable p : Parser.
Hypothesis sources_plain :
  forall conn, In conn (connections p) -> PyStr.contains "\" (source conn) = false.

Lemma succeeds_get_source_var id :
  succeeds_with p usable_source (_get_source_var id).
Proof.
  intros self [Hp Hc].
  destruct (source_vars_in_connection_order_aux id self Hc) as (self' & Hrun & Hp' & Hc').
  eexists. exists self'. split; [exact Hrun|].
  split; [split; [congruence | assumption]|].
  destruct (get_source_tools (parser self) id) as [|first rest] eqn:Hsrc.
  - now left.
  - right. simpl.
    destruct (get_source_tools_sources (parser self) id first) as (conn & Hconn & <-).
    { rewrite Hsrc. now left. }
    apply sources_plain. now rewrite <- Hp.
Qed.

Lemma succeeds_get_all_source_vars id :
  succeeds_with p (fun _ => True) (_get_all_source_vars id).
Proof.
  intros self [Hp Hc]. unfold _get_all_source_vars.
  destruct (var_names_canonical (get_source_tools (parser self) id) self Hc)
    as (self' & Hrun & Hp' & Hc').
  eexists. exists self'. split; [exact Hrun|].
  split; [split; [congruence | assumption] | exact I].
Qed.

End PlainWorkflow.

Lemma string_default key config default :
  string_valued key config -> (exists s, default = VStr s) ->
  exists s, PyDict.get_default key default config = VStr s.
Proof.
  intros Hkey Hdefault. unfold PyDict.get_default.
  destruct (PyDict.get key config) as [v|] eqn:Hget; [now apply Hkey | assumption].
Qed.

Lemma succeeds_lift_done {A} p (a : A) : succeeds_with p (fun _ => True) (lift (Done a)).
Proof. intros self Hs. exists a, self. auto. Qed.

Lemma succeeds_convert p (expr var_name : string) :
  PyStr.contains "\" var_name = false ->
  succeeds_with p (fun _ => True) (lift (_convert_expression_to_pandas (VStr expr) var_name)).
Proof.
  intros Hvar. unfold _convert_expression_to_pandas. rewrite Hvar.
  apply succeeds_lift_done.
Qed.

(** Closes the branches that only return lines. *)
Ltac returns_lines :=
  repeat first
    [ apply succeeds_ret; exact I
    | eapply succeeds_bind; [apply succeeds_add_import | intros ? _]
    | match goal with
      | |- succeeds_with _ _ (if ?b then _ else _) => destruct b
      end ].

Section PlainTool.

Variable p : Parser.
Hypothesis sources_plain :
  forall conn, In conn (connections p) -> PyStr.contains "\" (source conn) = false.

Variable tool : Tool.
Hypothesis tool_plain : plain_tool tool.

Variable var_name : string.
Hypothesis var_name_plain : PyStr.contains "\" var_name = false.

Lemma text_key key : In key text_keys -> string_valued key (config tool).
Proof. now apply tool_plain. Qed.

(** The generators that read one source and return fixed lines. *)
Ltac one_source :=
  cbv zeta;
  eapply succeeds_bind; [apply (succeeds_get_source_var p sources_plain) | intros ? _];
  returns_lines.

Lemma succeeds_select : succeeds_with p (fun _ => True) (_generate_select tool var_name).
Proof. unfold _generate_select. one_source. Qed.

Lemma succeeds_sort : succeeds_with p (fun _ => True) (_generate_sort tool var_name).
Proof. unfold _generate_sort. one_source. Qed.

Lemma succeeds_summarize :
  succeeds_with p (fun _ => True) (_generate_summarize tool var_name).
Proof. unfold _generate_summarize. one_source. Qed.

Lemma succeeds_unique : succeeds_with p (fun _ => True) (_generate_unique tool var_name).
Proof. unfold _generate_unique. one_source. Qed.

Lemma succeeds_sample : succeeds_with p (fun _ => True) (_generate_sample tool var_name).
Proof. unfold _generate_sample. one_source. Qed.

Lemma succeeds_record_id :
  succeeds_with p (fun _ => True) (_generate_record_id tool var_name).
Proof. unfold _generate_record_id. one_source. Qed.

Lemma succeeds_text_to_columns :
  succeeds_with p (fun _ => True) (_generate_text_to_columns tool var_name).
Proof. unfold _generate_text_to_columns. one_source. Qed.

Lemma succeeds_cross_tab :
  succeeds_with p (fun _ => True) (_generate_cross_tab tool var_name).
Proof. unfold _generate_cross_tab. one_source. Qed.

Lemma succeeds_transpose :
  succeeds_with p (fun _ => True) (_generate_transpose tool var_name).
Proof. unfold _generate_transpose. one_source. Qed.

Lemma succeeds_browse : succeeds_with p (fun _ => True) (_generate_browse tool var_name).
Proof. unfold _generate_browse. one_source. Qed.

Lemma succeeds_generic : succeeds_with p (fun _ => True) (_generate_generic tool var_name).
Proof. unfold _generate_generic. one_source. Qed.

Lemma succeeds_input_data :
  succeeds_with p (fun _ => True) (_generate_input_data tool var_name).
Proof.
  unfold _generate_input_data. cbv zeta.
  destruct (string_default "File" (config tool)
              (PyDict.get_default "FileName" (VStr "input.csv") (config tool)))
    as (path & ->).
  - apply text_key. unfold text_keys. simpl. tauto.
  - apply string_default; [|eauto]. apply text_key. unfold text_keys. simpl. tauto.
  - returns_lines.
Qed.

Lemma succeeds_output_data :
  succeeds_with p (fun _ => True) (_generate_output_data tool var_name).
Proof.
  unfold _generate_output_data. cbv zeta.
  eapply succeeds_bind; [apply (succeeds_get_source_var p sources_plain) | intros o _].
  destruct (no_source o); [returns_lines|].
  destruct (string_default "File" (config tool)
              (PyDict.get_default "FileName_Out" (VStr "output.csv") (config tool)))
    as (path & ->).
  - apply text_key. unfold text_keys. simpl. tauto.
  - apply string_default; [|eauto]. apply text_key. unfold text_keys. simpl. tauto.
  - returns_lines.
Qed.

Lemma succeeds_filter : succeeds_with p (fun _ => True) (_generate_filter tool var_name).
Proof.
  unfold _generate_filter. cbv zeta.
  eapply succeeds_bind; [apply (succeeds_get_source_var p sources_plain) | intros o Ho].
  destruct (no_source o) eqn:Hno; [returns_lines|].
  destruct Ho as [Ho | Ho]; [congruence|].
  destruct (string_default "Expression" (config tool)
              (PyDict.get_default "Filter" (VStr "") (config tool)))
    as (expr & ->).
  - apply text_key. unfold text_keys. simpl. tauto.
  - apply string_default; [|eauto]. apply text_key. unfold text_keys. simpl. tauto.
  - destruct (truthy (VStr expr)); [|returns_lines].
    eapply succeeds_bind; [now apply succeeds_convert | intros ? _]. returns_lines.
Qed.

Lemma succeeds_formula : succeeds_with p (fun _ => True) (_generate_formula tool var_name).
Proof.
  unfold _generate_formula. cbv zeta.
  eapply succeeds_bind; [apply (succeeds_get_source_var p sources_plain) | intros o _].
  destruct (no_source o); [returns_lines|].
  destruct (string_default "Expression" (config tool)
              (PyDict.get_default "Formula" (VStr "") (config tool)))
    as (expr & ->).
  - apply text_key. unfold text_keys. simpl. tauto.
  - apply string_default; [|eauto]. apply text_key. unfold text_keys. simpl. tauto.
  - destruct (truthy (VStr expr)); [|returns_lines].
    eapply succeeds_bind; [now apply succeeds_convert | intros ? _]. returns_lines.
Qed.

Lemma succeeds_join : succeeds_with p (fun _ => True) (_generate_join tool var_name).
Proof.
  unfold _generate_join.
  eapply succeeds_bind; [apply (succeeds_get_all_source_vars p) | intros vars _].
  destruct vars as [|left_var [|right_var rest]]; [returns_lines | returns_lines |].
  cbv zeta.
  destruct (string_default "JoinType" (config tool) (VStr "inner")) as (jt & ->).
  - apply text_key. unfold text_keys. simpl. tauto.
  - eauto.
  - returns_lines.
Qed.

Lemma succeeds_union : succeeds_with p (fun _ => True) (_generate_union tool var_name).
Proof.
  unfold _generate_union.
  eapply succeeds_bind; [apply (succeeds_get_all_source_vars p) | intros vars _].
  destruct vars as [|only [|second rest]]; cbv zeta; returns_lines.
Qed.

End PlainTool.

Lemma succeeds_generate_tool_code p tool :
  (forall conn, In conn (connections p) -> PyStr.contains "\" (source conn) = false) ->
  plain_tool tool ->
  succeeds_with p (fun _ => True) (_generate_tool_code tool).
Proof.
  intros Hsources Htool. unfold _generate_tool_code. cbv zeta.
  eapply succeeds_bind; [apply succeeds_get_var_name | intros var_name ->].
  assert (Hvar : PyStr.contains "\" ("df_" ++ tool_id tool) = false).
  { rewrite contains_backslash_df. apply Htool. }
  eapply succeeds_bind with (Q := fun _ => True); [|intros; apply succeeds_ret; exact I].
  repeat match goal with
         | |- succeeds_with _ _ (if ?b then _ else _) => destruct b
         end;
    auto using succeeds_input_data, succeeds_output_data, succeeds_filter,
      succeeds_select, succeeds_formula, succeeds_join, succeeds_union, succeeds_sort,
      succeeds_summarize, succeeds_unique, succeeds_sample, succeeds_record_id,
      succeeds_text_to_columns, succeeds_cross_tab, succeeds_transpose,
      succeeds_browse, succeeds_generic.
Qed.

Lemma find_tool_In ts id t : find_tool ts id = Some t -> In t ts.
Proof.
  intros Hfind. apply find_tool_some in Hfind.
  destruct Hfind as (earlier & later & -> & _). apply in_or_app. right. now left.
Qed.

Lemma succeeds_emit_tools p order :
  plain_workflow p -> succeeds_with p (fun _ => True) (emit_tools order).
Proof.
  intros [Htools Hsources].
  induction order as [|id order IH]; simpl; [now apply succeeds_ret|].
  intros self Hs. destruct Hs as [Hp Hc].
  unfold get_tool_by_id. rewrite Hp.
  destruct (find_tool (tools p) id) as [tool|] eqn:Hfind; [|apply IH; now split].
  apply find_tool_In in Hfind.
  refine ((_ : succeeds_with p (fun _ => True) _) self (conj Hp Hc)).
  eapply succeeds_bind; [apply succeeds_generate_tool_code; auto | intros code _].
  eapply succeeds_bind; [exact IH | intros more _].
  destruct code; apply succeeds_ret; exact I.
Qed.

(** X15.  On a fresh generator over a workflow in which no tool id and no
    connection source has a backslash, and in which the values under
    [File], [FileName], [FileName_Out], [JoinType], [Expression], [Filter]
    and [Formula] are text, [generate] returns a script at every reading of
    the clock: it does not raise. *)
Theorem generate_succeeds_on_plain_workflow (p : Parser) (now : datetime) :
  plain_workflow p ->
  exists text self', generate now (new_generator p) = Some (Done (text, self')).
Proof.
  intros Hplain. unfold generate, generate_lines. simpl.
  destruct (get_execution_order_spec p) as (order & in_degree & Hrun & _).
  rewrite Hrun. unfold bind, ret.
  destruct (succeeds_emit_tools p order Hplain (new_generator p))
    as (body & self' & Hemit & _).
  { split; [reflexivity | intros k v; discriminate]. }
  rewrite Hemit. eauto.
Qed.

Lemma generate_succeeds_on_plain_workflow_witness :
  exists text self',
    generate Samples.noon (new_generator Samples.chain_parser) = Some (Done (text, self')).
Proof.
  apply (generate_succeeds_on_plain_workflow Samples.chain_parser Samples.noon).
  split.
  - intros tool Hin. vm_compute in Hin.
    destruct Hin as [<- | [<- | [<- | []]]];
      (split; [reflexivity|]);
      intros key Hkey v Hget; unfold text_keys in Hkey; simpl in Hkey;
      repeat (destruct Hkey as [<- | Hkey]; [vm_compute in Hget;
                first [discriminate | injection Hget as <-; eauto]|]);
      destruct Hkey.
  - intros conn Hin. vm_compute in Hin.
    destruct Hin as [<- | [<- | []]]; reflexivity.
Defined.

(* ================================================================= *)
(** ** More on [_convert_expression_to_pandas] *)














(* ================================================================= *)
(** ** When [generate] raises *)





